(** * Reward and termination logic of the Panda grasp environments

    A shallow embedding of [envs/panda_grasp_env.py] (module [Grasp]) and
    [envs/panda_grasp_env_her.py] (module [GraspHER]).

    Numbers are IEEE binary64 values, as Python's [float] and numpy's
    [float64] are; counters are unbounded integers.  The physics engine
    (pybullet), the robot controller ([PandaEnv]) and [numpy.linalg.norm]
    are external collaborators: they are the fields of the class
    [Backend], and every definition below is parametric in it.  Python
    exceptions are values of [pyerror]; a method is a function from the
    object's state to a result and the state the object is left in, which
    is kept when the method raises. *)

From Stdlib Require Import Floats ZArith List String Bool Lia.
From Stdlib Require Uint63.
Import ListNotations.

Set Warnings "-inexact-float".
Set Implicit Arguments.

(** ** Python exceptions, list indexing and the method monad *)

Inductive pyerror : Type :=
| IndexError
| TypeError
| PybulletError.

Inductive result (A : Type) : Type :=
| Ok (a : A)
| Raise (e : pyerror).

Arguments Ok {A} a.
Arguments Raise {A} e.

(** [l[i]] for a Python list: a negative index counts from the end, and
    an index that is still out of range raises [IndexError]. *)
Definition py_getitem {A : Type} (l : list A) (i : Z) : result A :=
  let n := Z.of_nat (List.length l) in
  let j := if (i <? 0)%Z then (i + n)%Z else i in
  if ((j <? 0) || (n <=? j))%Z then Raise IndexError
  else match nth_error l (Z.to_nat j) with
       | Some x => Ok x
       | None => Raise IndexError
       end.

(** [l[lo:hi]] for constants [0 <= lo <= hi]. *)
Definition py_slice {A : Type} (l : list A) (lo hi : nat) : list A :=
  firstn (hi - lo) (skipn lo l).

(** What [step] is called with: a discrete index or a vector of floats. *)
Inductive pyaction : Type :=
| ActIndex (i : Z)
| ActVector (v : list float).

Definition M (S A : Type) : Type := S -> result A * S.

Definition ret {S A : Type} (a : A) : M S A := fun s => (Ok a, s).

Definition bind {S A B : Type} (c : M S A) (k : A -> M S B) : M S B :=
  fun s => match c s with
           | (Ok a, s') => k a s'
           | (Raise e, s') => (Raise e, s')
           end.

Definition lift {S A : Type} (r : result A) : M S A := fun s => (r, s).

Definition gets {S A : Type} (f : S -> A) : M S A := fun s => (Ok (f s), s).

Definition modify {S : Type} (f : S -> S) : M S unit := fun s => (Ok tt, f s).

Declare Scope py_scope.
Delimit Scope py_scope with py.
Notation "x <- c ;; k" := (bind c (fun x => k))
  (at level 61, c at next level, right associativity) : py_scope.
Notation "c ;;; k" := (bind c (fun _ => k))
  (at level 61, right associativity) : py_scope.

(** The integer [n] as a float, as in [1 / anim_length]. *)
Definition float_of_Z (n : Z) : float := PrimFloat.of_uint63 (Uint63.of_Z n).

Definition vec3 : Type := float * float * float.
Definition quat : Type := float * float * float * float.

Definition vx (v : vec3) : float := fst (fst v).
Definition vy (v : vec3) : float := snd (fst v).
Definition vz (v : vec3) : float := snd v.

Definition list_of_vec3 (v : vec3) : list float := [vx v; vy v; vz v].
Definition list_of_quat (q : quat) : list float :=
  [fst (fst (fst q)); snd (fst (fst q)); snd (fst q); snd q].

(** ** The external collaborators *)

Class Backend : Type := {
  world : Type;
  (* pybullet *)
  resetSimulation : world -> world;
  setPhysicsEngineParameter : Z -> world -> world;
  setTimeStep : float -> world -> world;
  loadURDF_plane : world -> world;
  loadURDF_table : world -> Z * world;
  (* entries [3] (dimensions) and [5] (local frame position) of the first
     visual shape of a body *)
  getVisualShapeData : Z -> world -> vec3 * vec3;
  loadURDF_cube : list float -> option quat -> world -> Z * world;
  getQuaternionFromEuler : vec3 -> quat;
  setGravity : vec3 -> world -> world;
  stepSimulation : world -> world;
  getBasePositionAndOrientation : Z -> world -> vec3 * quat;
  (* PandaEnv: constructor, attributes and methods *)
  new_PandaEnv : vec3 -> float -> bool -> Z -> world -> world;
  workspace_lim : world -> (float * float) * (float * float) * (float * float);
  set_workspace_lim_z_low : float -> world -> world;
  get_observation : world -> list float;
  apply_action : list float -> world -> world;
  update_gripper_pos : world -> world;
  (* p.getLinkState(panda_id, gripper_index)[0] *)
  getLinkState_gripper : world -> vec3;
  (* numpy *)
  random_uniform : float -> float -> world -> float * world;
  linalg_norm : list float -> float
}.

Local Open Scope float_scope.

(** ** What the two files share

    [close_fingers], [lift_gripper] and [get_distance] are the same in
    both files up to the end-effector cutoff of the lift; the loops are
    stated once over the world and used by both classes. *)

Section Shared.
Context {B : Backend}.

(** One animation tick: send a command, advance the physics. *)
Definition tick (cmd : list float) (w : world) : world :=
  stepSimulation (apply_action cmd w).

Definition grasp_action (finger_angle : float) : list float :=
  [0; 0; 0; 0; 0; 0; finger_angle].

Definition lift_action : list float := [0; 0; 0.005; 0; 0; 0; 0].

(** [finger_angle -= 1 / anim_length], clamped at zero. *)
Definition next_finger_angle (anim_length : Z) (finger_angle : float) : float :=
  let finger_angle := finger_angle - 1 / float_of_Z anim_length in
  if finger_angle <? 0 then 0 else finger_angle.

(** The body of [for i in range(anim_length)] in [close_fingers], with
    [iters] iterations left; returns the last [finger_angle] too. *)
Fixpoint close_fingers_loop (iters : nat) (anim_length : Z)
    (finger_angle : float) (w : world) : float * world :=
  match iters with
  | O => (finger_angle, w)
  | S k =>
      let w := tick (grasp_action finger_angle) w in
      close_fingers_loop k anim_length (next_finger_angle anim_length finger_angle) w
  end.

Definition close_fingers_world (anim_length : Z) (w : world) : world :=
  snd (close_fingers_loop (Z.to_nat anim_length) anim_length 1 w).

(** The body of the loop of [lift_gripper], with [iters] iterations
    left; both [break]s end the loop. *)
Fixpoint lift_gripper_loop (iters : nat) (target_object_id : Z)
    (ee_cutoff : float) (w : world) : world :=
  match iters with
  | O => w
  | S k =>
      let w := tick lift_action w in
      let block_pos := fst (getBasePositionAndOrientation target_object_id w) in
      if 0.8 <? vz block_pos then w
      else
        let actual_end_effector_pos := getLinkState_gripper w in
        if ee_cutoff <? vz actual_end_effector_pos then w
        else lift_gripper_loop k target_object_id ee_cutoff w
  end.

Definition lift_gripper_world (anim_length : Z) (target_object_id : Z)
    (ee_cutoff : float) (w : world) : world :=
  lift_gripper_loop (Z.to_nat anim_length) target_object_id ee_cutoff w.

(** [get_distance]: scale both points by [axis], take the norm of the
    difference. *)
Definition get_distance {S : Type} (point_a point_b axis : list float)
  : M S float :=
  (a0 <- lift (py_getitem axis 0) ;; pa0 <- lift (py_getitem point_a 0) ;;
   a1 <- lift (py_getitem axis 1) ;; pa1 <- lift (py_getitem point_a 1) ;;
   a2 <- lift (py_getitem axis 2) ;; pa2 <- lift (py_getitem point_a 2) ;;
   b0 <- lift (py_getitem axis 0) ;; pb0 <- lift (py_getitem point_b 0) ;;
   b1 <- lift (py_getitem axis 1) ;; pb1 <- lift (py_getitem point_b 1) ;;
   b2 <- lift (py_getitem axis 2) ;; pb2 <- lift (py_getitem point_b 2) ;;
   ret (linalg_norm [a0 * pa0 - b0 * pb0; a1 * pa1 - b1 * pb1; a2 * pa2 - b2 * pb2]))%py.

End Shared.

(** ** [panda_grasp_env.py] *)

Module Grasp.

(** The arguments of [__init__] that the logic reads. *)
Record config : Type := {
  use_ik : bool;
  is_discrete : bool;
  action_repeat_amount : Z;
  is_rendering : bool;
  max_step_count : Z;
  is_target_position_fixed : bool;
  num_controlled_joints : Z;
  is_continuous_downward_enabled : bool;
  reward_type : string
}.

(** Attributes set once in [__init__] from literals. *)
Definition _distance_to_grasp : float := 0.11.
Definition _time_step : float := 1 / 240.
Definition lift_distance : float := 0.04.
Definition discrete_action_space : Z := 7.

(** The dictionary built by [get_extended_observation]; both goals are
    arrays of shape (3,). *)
Record obs_dict : Type := {
  observation : list float;
  achieved_goal : vec3;
  desired_goal : vec3
}.

(** [self._observation]: the list [[]] of [__init__], then a dictionary. *)
Inductive pyobs : Type :=
| ObsList (l : list float)
| ObsDict (d : obs_dict).

(** [obs[key]] for a string key. *)
Definition obs_item {A : Type} (key : obs_dict -> A) (o : pyobs) : result A :=
  match o with
  | ObsDict d => Ok (key d)
  | ObsList _ => Raise TypeError
  end.

Record step_result : Type := {
  res_observation : pyobs;
  res_reward : float;
  res_done : bool;
  res_is_success : bool
}.

Section WithBackend.
Context {B : Backend}.

(** The attributes that change after [__init__], and the simulated
    world the object talks to. *)
Record env : Type := {
  cfg : config;
  _episode_number : Z;
  _grasp_attempts_count : Z;
  _attempted_grasp : bool;
  _observation : pyobs;
  _env_step_counter : Z;
  _terminated : bool;
  _table_height : float;
  _successful_grasp_count : Z;
  _target_object_id : Z;
  _is_successful_grasp : bool;
  _goal_position : vec3;
  sim : world
}.

Definition set_sim (w : world) (e : env) : env :=
  {| cfg := cfg e; _episode_number := _episode_number e;
     _grasp_attempts_count := _grasp_attempts_count e;
     _attempted_grasp := _attempted_grasp e; _observation := _observation e;
     _env_step_counter := _env_step_counter e; _terminated := _terminated e;
     _table_height := _table_height e;
     _successful_grasp_count := _successful_grasp_count e;
     _target_object_id := _target_object_id e;
     _is_successful_grasp := _is_successful_grasp e;
     _goal_position := _goal_position e; sim := w |}.

Definition set_episode_number (n : Z) (e : env) : env :=
  {| cfg := cfg e; _episode_number := n;
     _grasp_attempts_count := _grasp_attempts_count e;
     _attempted_grasp := _attempted_grasp e; _observation := _observation e;
     _env_step_counter := _env_step_counter e; _terminated := _terminated e;
     _table_height := _table_height e;
     _successful_grasp_count := _successful_grasp_count e;
     _target_object_id := _target_object_id e;
     _is_successful_grasp := _is_successful_grasp e;
     _goal_position := _goal_position e; sim := sim e |}.

Definition set_grasp_attempts_count (n : Z) (e : env) : env :=
  {| cfg := cfg e; _episode_number := _episode_number e;
     _grasp_attempts_count := n;
     _attempted_grasp := _attempted_grasp e; _observation := _observation e;
     _env_step_counter := _env_step_counter e; _terminated := _terminated e;
     _table_height := _table_height e;
     _successful_grasp_count := _successful_grasp_count e;
     _target_object_id := _target_object_id e;
     _is_successful_grasp := _is_successful_grasp e;
     _goal_position := _goal_position e; sim := sim e |}.

Definition set_attempted_grasp (b : bool) (e : env) : env :=
  {| cfg := cfg e; _episode_number := _episode_number e;
     _grasp_attempts_count := _grasp_attempts_count e;
     _attempted_grasp := b; _observation := _observation e;
     _env_step_counter := _env_step_counter e; _terminated := _terminated e;
     _table_height := _table_height e;
     _successful_grasp_count := _successful_grasp_count e;
     _target_object_id := _target_object_id e;
     _is_successful_grasp := _is_successful_grasp e;
     _goal_position := _goal_position e; sim := sim e |}.

Definition set_observation (o : pyobs) (e : env) : env :=
  {| cfg := cfg e; _episode_number := _episode_number e;
     _grasp_attempts_count := _grasp_attempts_count e;
     _attempted_grasp := _attempted_grasp e; _observation := o;
     _env_step_counter := _env_step_counter e; _terminated := _terminated e;
     _table_height := _table_height e;
     _successful_grasp_count := _successful_grasp_count e;
     _target_object_id := _target_object_id e;
     _is_successful_grasp := _is_successful_grasp e;
     _goal_position := _goal_position e; sim := sim e |}.

Definition set_env_step_counter (n : Z) (e : env) : env :=
  {| cfg := cfg e; _episode_number := _episode_number e;
     _grasp_attempts_count := _grasp_attempts_count e;
     _attempted_grasp := _attempted_grasp e; _observation := _observation e;
     _env_step_counter := n; _terminated := _terminated e;
     _table_height := _table_height e;
     _successful_grasp_count := _successful_grasp_count e;
     _target_object_id := _target_object_id e;
     _is_successful_grasp := _is_successful_grasp e;
     _goal_position := _goal_position e; sim := sim e |}.

Definition set_successful_grasp_count (n : Z) (e : env) : env :=
  {| cfg := cfg e; _episode_number := _episode_number e;
     _grasp_attempts_count := _grasp_attempts_count e;
     _attempted_grasp := _attempted_grasp e; _observation := _observation e;
     _env_step_counter := _env_step_counter e; _terminated := _terminated e;
     _table_height := _table_height e;
     _successful_grasp_count := n;
     _target_object_id := _target_object_id e;
     _is_successful_grasp := _is_successful_grasp e;
     _goal_position := _goal_position e; sim := sim e |}.

Definition set_is_successful_grasp (b : bool) (e : env) : env :=
  {| cfg := cfg e; _episode_number := _episode_number e;
     _grasp_attempts_count := _grasp_attempts_count e;
     _attempted_grasp := _attempted_grasp e; _observation := _observation e;
     _env_step_counter := _env_step_counter e; _terminated := _terminated e;
     _table_height := _table_height e;
     _successful_grasp_count := _successful_grasp_count e;
     _target_object_id := _target_object_id e;
     _is_successful_grasp := b;
     _goal_position := _goal_position e; sim := sim e |}.

Local Open Scope py_scope.

(** [_sample_pose]: x and y uniform in the workspace, z on the table. *)
Definition _sample_pose (table_height : float) (w : world) : vec3 * world :=
  let ws_lim := workspace_lim w in
  let xw := random_uniform (fst (fst (fst ws_lim))) (snd (fst (fst ws_lim))) w in
  let yw := random_uniform (fst (snd (fst ws_lim))) (snd (snd (fst ws_lim))) (snd xw) in
  ((fst xw, fst yw, table_height), snd yw).

Definition get_extended_observation (e : env) : obs_dict :=
  let observation := get_observation (sim e) in
  let target := getBasePositionAndOrientation (_target_object_id e) (sim e) in
  let achieved_goal := fst target in
  let observation :=
    observation ++ list_of_vec3 achieved_goal ++ list_of_quat (snd target)
                ++ list_of_vec3 (_goal_position e) in
  {| observation := observation;
     achieved_goal := achieved_goal;
     desired_goal := _goal_position e |}.

(** [reset]; its return value is the new [_observation]. *)
Definition reset (e : env) : env :=
  let w := resetSimulation (sim e) in
  let w := setPhysicsEngineParameter 150 w in
  let w := setTimeStep _time_step w in
  let w := loadURDF_plane w in
  let w := new_PandaEnv (0, 0, 0.625) _time_step (use_ik (cfg e))
             (num_controlled_joints (cfg e)) w in
  let table := loadURDF_table w in
  let table_info := getVisualShapeData (fst table) (snd table) in
  let table_height := vz (snd table_info) + vz (fst table_info) + 0.01 in
  let w := set_workspace_lim_z_low table_height (snd table) in
  let placed :=
    if is_target_position_fixed (cfg e) then
      let target_orn := getQuaternionFromEuler (0, 0, 0) in
      (loadURDF_cube [0.7; 0.25; table_height] (Some target_orn) w,
       (0.7, 0.25, table_height + lift_distance))
    else
      let pos := _sample_pose table_height w in
      (loadURDF_cube (list_of_vec3 (fst pos)) None (snd pos),
       (vx (fst pos) + 0, vy (fst pos) + 0, vz (fst pos) + lift_distance)) in
  let w := setGravity (0, 0, -9.8) (snd (fst placed)) in
  let w := stepSimulation w in
  let e' :=
    {| cfg := cfg e; _episode_number := _episode_number e;
       _grasp_attempts_count := _grasp_attempts_count e;
       _attempted_grasp := false; _observation := _observation e;
       _env_step_counter := 0; _terminated := false;
       _table_height := table_height;
       _successful_grasp_count := _successful_grasp_count e;
       _target_object_id := fst (fst placed);
       _is_successful_grasp := false;
       _goal_position := snd placed; sim := w |} in
  set_observation (ObsDict (get_extended_observation e')) e'.

(** [__init__]: the attributes, then [reset]; [w] is the simulator
    connection.  The attributes that are [None] or [[]] until [reset]
    assigns them hold placeholders here. *)
Definition init (c : config) (w : world) : env :=
  reset {| cfg := c; _episode_number := 1; _grasp_attempts_count := 0;
           _attempted_grasp := false; _observation := ObsList [];
           _env_step_counter := 0; _terminated := false;
           _table_height := 0; _successful_grasp_count := 0;
           _target_object_id := 0; _is_successful_grasp := false;
           _goal_position := (0, 0, 0); sim := w |}.

Definition _termination (e : env) : bool :=
  _is_successful_grasp e
  || (max_step_count (cfg e) <=? _env_step_counter e)%Z
  || _attempted_grasp e.

Definition close_fingers (anim_length : Z) : M env unit :=
  modify (fun e => set_sim (close_fingers_world anim_length (sim e)) e).

Definition lift_gripper (anim_length : Z) : M env unit :=
  modify (fun e =>
    set_sim (lift_gripper_world anim_length (_target_object_id e) 2.5 (sim e)) e).

Definition perform_grasp : M env unit :=
  let anim_length := 100%Z in
  modify (fun e => set_sim (update_gripper_pos (sim e)) e) ;;;
  close_fingers anim_length ;;;
  lift_gripper anim_length ;;;
  modify (set_attempted_grasp true).

Definition get_gripper_pos : M env (list float) :=
  o <- gets _observation ;;
  obs <- lift (obs_item observation o) ;;
  ret (py_slice obs 0 3).

Definition get_target_pos : M env (list float) :=
  o <- gets _observation ;;
  achieved <- lift (obs_item achieved_goal o) ;;
  ret (list_of_vec3 achieved).

Definition get_horizontal_distance_to_target : M env float :=
  target_obj_pos <- get_target_pos ;;
  gripper_pos <- get_gripper_pos ;;
  get_distance gripper_pos target_obj_pos [1; 1; 0]%float.

Definition get_distance_to_target : M env float :=
  target_obj_pos <- get_target_pos ;;
  gripper_pos <- get_gripper_pos ;;
  get_distance gripper_pos target_obj_pos [1; 1; 1]%float.

Definition get_vertical_distance_to_target : M env float :=
  target_obj_pos <- get_target_pos ;;
  gripper_pos <- get_gripper_pos ;;
  get_distance gripper_pos target_obj_pos [0; 0; 1]%float.

Definition _is_success (object_position goal_position : vec3) : M env bool :=
  attempted <- gets _attempted_grasp ;;
  if attempted then
    if vz goal_position <=? vz object_position then ret true else ret false
  else ret false.

(** [np.float32] of a boolean. *)
Definition float32_of_bool (b : bool) : float := if b then 1 else 0.

Definition compute_reward (achieved_goal desired_goal : vec3)
    (info_is_success : bool) : M env float :=
  rt <- gets (fun e => reward_type (cfg e)) ;;
  if String.eqb rt "sparse" then
    s <- _is_success achieved_goal desired_goal ;;
    ret (float32_of_bool s)
  else
    horizontal_distance <- get_horizontal_distance_to_target ;;
    let reward := - horizontal_distance * 10 in
    reward <- (if horizontal_distance <=? 0.025 then
                 d <- get_distance_to_target ;;
                 ret (- (d * 10))
               else ret (reward - 10)) ;;
    if info_is_success then ret (reward + 10000) else ret reward.

(** [real_step] in three blocks.  First the command is applied and
    the physics advanced (down to the first refresh of
    [self._observation]; [time.sleep] has no effect on the state). *)
Definition physics_tick (action : list float) : M env unit :=
  modify (fun e => set_sim (apply_action action (sim e)) e) ;;;
  modify (fun e => set_sim (stepSimulation (sim e)) e) ;;;
  modify (fun e => set_env_step_counter (_env_step_counter e + 1)%Z e) ;;;
  modify (fun e => set_observation (ObsDict (get_extended_observation e)) e).

(** Then the distance check and the grasp. *)
Definition grasp_trigger : M env unit :=
  distance <- get_vertical_distance_to_target ;;
  if distance <=? _distance_to_grasp then
    modify (fun e => set_grasp_attempts_count (_grasp_attempts_count e + 1)%Z e) ;;;
    perform_grasp ;;;
    modify (fun e => set_observation (ObsDict (get_extended_observation e)) e)
  else ret tt.

(** Then [info], the reward, [done] and the returned tuple. *)
Definition report : M env step_result :=
  o <- gets _observation ;;
  achieved <- lift (obs_item achieved_goal o) ;;
  desired <- lift (obs_item desired_goal o) ;;
  is_success <- _is_success achieved desired ;;
  (if is_success then
     modify (set_is_successful_grasp true) ;;;
     modify (fun e => set_successful_grasp_count (_successful_grasp_count e + 1)%Z e)
   else ret tt) ;;;
  o <- gets _observation ;;
  achieved <- lift (obs_item achieved_goal o) ;;
  goal <- gets _goal_position ;;
  reward <- compute_reward achieved goal is_success ;;
  done <- gets _termination ;;
  (if done then
     modify (fun e => set_episode_number (_episode_number e + 1)%Z e)
   else ret tt) ;;;
  o <- gets _observation ;;
  ret {| res_observation := o; res_reward := reward;
         res_done := done; res_is_success := is_success |}.

Definition real_step (action : list float) : M env step_result :=
  physics_tick action ;;; grasp_trigger ;;; report.

(** The command [real_action] that [step] builds from the action. *)
Definition real_action (action : pyaction) : M env (list float) :=
  discrete <- gets (fun e => is_discrete (cfg e)) ;;
  if discrete then
    match action with
    | ActIndex action =>
        let delta_pos := 0.01 in
        dx <- lift (py_getitem [0; - delta_pos; delta_pos; 0; 0; 0; 0] action) ;;
        dy <- lift (py_getitem [0; 0; 0; - delta_pos; delta_pos; 0; 0] action) ;;
        downward <- gets (fun e => is_continuous_downward_enabled (cfg e)) ;;
        dz <- (if downward then ret (- delta_pos)
               else lift (py_getitem [0; 0; 0; 0; 0; - delta_pos; delta_pos] action)) ;;
        let f := 1 in
        ret [dx; dy; dz; 0; 0; 0; f]
    | ActVector _ => lift (Raise TypeError)
    end
  else
    match action with
    | ActVector action =>
        let delta_pos := 1.5 in
        a0 <- lift (py_getitem action 0) ;;
        a1 <- lift (py_getitem action 1) ;;
        a2 <- lift (py_getitem action 2) ;;
        a3 <- lift (py_getitem action 3) ;;
        a4 <- lift (py_getitem action 4) ;;
        a5 <- lift (py_getitem action 5) ;;
        let f := 1 in
        ret [a0 * delta_pos; a1 * delta_pos; a2 * delta_pos;
             a3 * delta_pos; a4 * delta_pos; a5 * delta_pos; f]
    | ActIndex _ => lift (Raise TypeError)
    end.

(** [step]: both branches end in [return self.real_step(real_action)]. *)
Definition step (action : pyaction) : M env step_result :=
  cmd <- real_action action ;;
  real_step cmd.

End WithBackend.
End Grasp.

(** ** [panda_grasp_env_her.py] *)

Module GraspHER.

Record config : Type := {
  use_ik : bool;
  is_discrete : bool;
  action_repeat_amount : Z;
  is_rendering : bool;
  max_step_count : Z;
  is_target_position_fixed : bool;
  num_controlled_joints : Z;
  is_continuous_downward_enabled : bool
}.

Definition target_object_height : float := 0.7.
Definition distance_to_grasp : float := 0.11.
Definition _time_step : float := 1 / 240.
Definition discrete_action_space : Z := 6.
Definition np_pi : float := 3.141592653589793.

(** The [OrderedDict] built by [get_extended_observation]; both goals
    are scalars here. *)
Record obs_dict : Type := {
  observation : list float;
  achieved_goal : float;
  desired_goal : float
}.

Inductive pyobs : Type :=
| ObsList (l : list float)
| ObsDict (d : obs_dict).

(** [obs[lo:hi]]: a list is sliced; a dictionary is asked for the slice
    as a key, and a slice is not hashable (Python before 3.12). *)
Definition obs_slice (o : pyobs) (lo hi : nat) : result (list float) :=
  match o with
  | ObsList l => Ok (py_slice l lo hi)
  | ObsDict _ => Raise TypeError
  end.

Record step_result : Type := {
  res_observation : pyobs;
  res_reward : float;
  res_done : bool;
  res_is_success : bool
}.

Section WithBackend.
Context {B : Backend}.

Record env : Type := {
  cfg : config;
  episode_number : Z;
  grasp_attempts_count : Z;
  _attempted_grasp : bool;
  _observation : pyobs;
  _env_step_counter : Z;
  _terminated : bool;
  _table_height : float;
  successful_grasp_count : Z;
  target_object_id : Z;
  successful_grasp : bool;
  sim : world
}.

Definition set_sim (w : world) (e : env) : env :=
  {| cfg := cfg e; episode_number := episode_number e;
     grasp_attempts_count := grasp_attempts_count e;
     _attempted_grasp := _attempted_grasp e; _observation := _observation e;
     _env_step_counter := _env_step_counter e; _terminated := _terminated e;
     _table_height := _table_height e;
     successful_grasp_count := successful_grasp_count e;
     target_object_id := target_object_id e;
     successful_grasp := successful_grasp e; sim := w |}.

Definition set_episode_number (n : Z) (e : env) : env :=
  {| cfg := cfg e; episode_number := n;
     grasp_attempts_count := grasp_attempts_count e;
     _attempted_grasp := _attempted_grasp e; _observation := _observation e;
     _env_step_counter := _env_step_counter e; _terminated := _terminated e;
     _table_height := _table_height e;
     successful_grasp_count := successful_grasp_count e;
     target_object_id := target_object_id e;
     successful_grasp := successful_grasp e; sim := sim e |}.

Definition set_grasp_attempts_count (n : Z) (e : env) : env :=
  {| cfg := cfg e; episode_number := episode_number e;
     grasp_attempts_count := n;
     _attempted_grasp := _attempted_grasp e; _observation := _observation e;
     _env_step_counter := _env_step_counter e; _terminated := _terminated e;
     _table_height := _table_height e;
     successful_grasp_count := successful_grasp_count e;
     target_object_id := target_object_id e;
     successful_grasp := successful_grasp e; sim := sim e |}.

Definition set_attempted_grasp (b : bool) (e : env) : env :=
  {| cfg := cfg e; episode_number := episode_number e;
     grasp_attempts_count := grasp_attempts_count e;
     _attempted_grasp := b; _observation := _observation e;
     _env_step_counter := _env_step_counter e; _terminated := _terminated e;
     _table_height := _table_height e;
     successful_grasp_count := successful_grasp_count e;
     target_object_id := target_object_id e;
     successful_grasp := successful_grasp e; sim := sim e |}.

Definition set_observation (o : pyobs) (e : env) : env :=
  {| cfg := cfg e; episode_number := episode_number e;
     grasp_attempts_count := grasp_attempts_count e;
     _attempted_grasp := _attempted_grasp e; _observation := o;
     _env_step_counter := _env_step_counter e; _terminated := _terminated e;
     _table_height := _table_height e;
     successful_grasp_count := successful_grasp_count e;
     target_object_id := target_object_id e;
     successful_grasp := successful_grasp e; sim := sim e |}.

Definition set_env_step_counter (n : Z) (e : env) : env :=
  {| cfg := cfg e; episode_number := episode_number e;
     grasp_attempts_count := grasp_attempts_count e;
     _attempted_grasp := _attempted_grasp e; _observation := _observation e;
     _env_step_counter := n; _terminated := _terminated e;
     _table_height := _table_height e;
     successful_grasp_count := successful_grasp_count e;
     target_object_id := target_object_id e;
     successful_grasp := successful_grasp e; sim := sim e |}.

Definition set_successful_grasp_count (n : Z) (e : env) : env :=
  {| cfg := cfg e; episode_number := episode_number e;
     grasp_attempts_count := grasp_attempts_count e;
     _attempted_grasp := _attempted_grasp e; _observation := _observation e;
     _env_step_counter := _env_step_counter e; _terminated := _terminated e;
     _table_height := _table_height e;
     successful_grasp_count := n;
     target_object_id := target_object_id e;
     successful_grasp := successful_grasp e; sim := sim e |}.

Definition set_successful_grasp (b : bool) (e : env) : env :=
  {| cfg := cfg e; episode_number := episode_number e;
     grasp_attempts_count := grasp_attempts_count e;
     _attempted_grasp := _attempted_grasp e; _observation := _observation e;
     _env_step_counter := _env_step_counter e; _terminated := _terminated e;
     _table_height := _table_height e;
     successful_grasp_count := successful_grasp_count e;
     target_object_id := target_object_id e;
     successful_grasp := b; sim := sim e |}.

Local Open Scope py_scope.

(** [_sample_pose]: here x and y are arrays of one element each
    ([size=1]); the pair of their values and the height is returned. *)
Definition _sample_pose (table_height : float) (w : world) : vec3 * world :=
  let ws_lim := workspace_lim w in
  let xw := random_uniform (fst (fst (fst ws_lim))) (snd (fst (fst ws_lim))) w in
  let yw := random_uniform (fst (snd (fst ws_lim))) (snd (snd (fst ws_lim))) (snd xw) in
  ((fst xw, fst yw, table_height), snd yw).

Definition get_extended_observation (e : env) : obs_dict :=
  let observation := get_observation (sim e) in
  let target := getBasePositionAndOrientation (target_object_id e) (sim e) in
  let achieved_goal := vz (fst target) in
  let observation :=
    observation ++ list_of_vec3 (fst target) ++ list_of_quat (snd target)
                ++ [target_object_height] in
  {| observation := observation;
     achieved_goal := achieved_goal;
     desired_goal := target_object_height |}.

(** [p.loadURDF] of the cube with [basePosition=pos].  The binding
    converts [basePosition] into a vector of three numbers and raises
    [pybullet.error] for a sequence of any other length, before it loads
    anything. *)
Definition p_loadURDF_cube (pos : list float) (orn : option quat) (w : world)
  : result Z * world :=
  match pos with
  | [_; _; _] =>
      let placed := loadURDF_cube pos orn w in
      (Ok (fst placed), snd placed)
  | _ => (Raise PybulletError, w)
  end.

(** [reset]; its return value is the new [_observation].  With a
    sampled position the cube is loaded at [_sample_pose()[0]], the
    one-element array x, which [p.loadURDF] refuses: the call raises
    after the flags, the step counter, the robot and the table height
    were assigned, and before [target_object_id] and [_observation]
    are. *)
Definition reset : M env pyobs := fun e =>
  let w := resetSimulation (sim e) in
  let w := setPhysicsEngineParameter 150 w in
  let w := setTimeStep _time_step w in
  let w := loadURDF_plane w in
  let w := new_PandaEnv (0, 0, 0.625) _time_step (use_ik (cfg e))
             (num_controlled_joints (cfg e)) w in
  let table := loadURDF_table w in
  let table_info := getVisualShapeData (fst table) (snd table) in
  let table_height := vz (snd table_info) + vz (fst table_info) + 0.01 in
  let w := set_workspace_lim_z_low table_height (snd table) in
  let placed :=
    if is_target_position_fixed (cfg e) then
      let yaw := random_uniform (- np_pi) np_pi w in
      let target_orn := getQuaternionFromEuler (0, 0, fst yaw) in
      p_loadURDF_cube [0.7; 0.25; table_height] (Some target_orn) (snd yaw)
    else
      let pos := _sample_pose table_height w in
      p_loadURDF_cube [vx (fst pos)] None (snd pos) in
  match fst placed with
  | Raise err =>
      (Raise err,
       {| cfg := cfg e; episode_number := episode_number e;
          grasp_attempts_count := grasp_attempts_count e;
          _attempted_grasp := false; _observation := _observation e;
          _env_step_counter := 0; _terminated := false;
          _table_height := table_height;
          successful_grasp_count := successful_grasp_count e;
          target_object_id := target_object_id e;
          successful_grasp := false; sim := snd placed |})
  | Ok id =>
      let w := setGravity (0, 0, -9.8) (snd placed) in
      let w := stepSimulation w in
      let e' :=
        {| cfg := cfg e; episode_number := episode_number e;
           grasp_attempts_count := grasp_attempts_count e;
           _attempted_grasp := false; _observation := _observation e;
           _env_step_counter := 0; _terminated := false;
           _table_height := table_height;
           successful_grasp_count := successful_grasp_count e;
           target_object_id := id;
           successful_grasp := false; sim := w |} in
      let o := ObsDict (get_extended_observation e') in
      (Ok o, set_observation o e')
  end.

(** The attributes [__init__] assigns before it calls [reset]; [w] is
    the simulator connection.  Those that are [None] until [reset]
    assigns them hold placeholders here. *)
Definition attributes (c : config) (w : world) : env :=
  {| cfg := c; episode_number := 1; grasp_attempts_count := 0;
     _attempted_grasp := false; _observation := ObsList [];
     _env_step_counter := 0; _terminated := false;
     _table_height := 0; successful_grasp_count := 0;
     target_object_id := 0; successful_grasp := false; sim := w |}.

(** [__init__]: the attributes, then [reset].  When [reset] raises so
    does [__init__] and no object is returned; the state is then what is
    left of the half-built object and of the simulator. *)
Definition init (c : config) (w : world) : result unit * env :=
  (reset ;;; ret tt) (attributes c w).

Definition _termination (e : env) : bool :=
  _attempted_grasp e || (max_step_count (cfg e) <=? _env_step_counter e)%Z.

Definition close_fingers (anim_length : Z) : M env unit :=
  modify (fun e => set_sim (close_fingers_world anim_length (sim e)) e).

Definition lift_gripper (anim_length : Z) : M env unit :=
  modify (fun e =>
    set_sim (lift_gripper_world anim_length (target_object_id e) 2 (sim e)) e).

Definition perform_grasp : M env unit :=
  let anim_length := 100%Z in
  modify (fun e => set_sim (update_gripper_pos (sim e)) e) ;;;
  close_fingers anim_length ;;;
  lift_gripper anim_length ;;;
  modify (set_attempted_grasp true).

Definition get_gripper_pos : M env (list float) :=
  o <- gets _observation ;;
  lift (obs_slice o 0 3).

Definition get_target_pos : M env (list float) :=
  o <- gets _observation ;;
  lift (obs_slice o 7 10).

Definition get_distance_to_target : M env float :=
  target_obj_pos <- get_target_pos ;;
  gripper_pos <- get_gripper_pos ;;
  get_distance gripper_pos target_obj_pos [1; 1; 1]%float.

Definition _compute_reward : M env float :=
  target_obj_pos <- get_target_pos ;;
  gripper_pos <- get_gripper_pos ;;
  height <- lift (py_getitem target_obj_pos 2) ;;
  if target_object_height <? height then
    modify (set_successful_grasp true) ;;;
    modify (fun e => set_successful_grasp_count (successful_grasp_count e + 1)%Z e) ;;;
    ret 1000000
  else
    horizontal_distance <- get_distance gripper_pos target_obj_pos [1; 1; 0]%float ;;
    let reward := - horizontal_distance * 100 in
    if horizontal_distance <=? 0.03 then
      d <- get_distance_to_target ;;
      ret (- d * 100)
    else ret (reward - 500).

(** The loop [for i in range(self._action_repeat_amount)] of
    [real_step], with [iters] iterations left. *)
Fixpoint repeat_action (iters : nat) (action : list float) (e : env) : env :=
  match iters with
  | O => e
  | S k =>
      let e := set_sim (apply_action action (sim e)) e in
      let e := set_sim (stepSimulation (sim e)) e in
      if _termination e then e
      else repeat_action k action
             (set_env_step_counter (_env_step_counter e + 1)%Z e)
  end.

(** [real_step] in three blocks.  First the command is applied
    [_action_repeat_amount] times (down to the first refresh of
    [self._observation]; [time.sleep] has no effect on the state). *)
Definition physics_tick (action : list float) : M env unit :=
  modify (fun e => repeat_action (Z.to_nat (action_repeat_amount (cfg e))) action e) ;;;
  modify (fun e => set_observation (ObsDict (get_extended_observation e)) e).

(** Then the distance check and the grasp. *)
Definition grasp_trigger : M env unit :=
  distance <- get_distance_to_target ;;
  if distance <=? distance_to_grasp then
    modify (fun e => set_grasp_attempts_count (grasp_attempts_count e + 1)%Z e) ;;;
    perform_grasp ;;;
    modify (fun e => set_observation (ObsDict (get_extended_observation e)) e)
  else ret tt.

(** Then the reward, [done] and the returned tuple. *)
Definition report : M env step_result :=
  reward <- _compute_reward ;;
  done <- gets _termination ;;
  (if done then
     modify (fun e => set_episode_number (episode_number e + 1)%Z e)
   else ret tt) ;;;
  o <- gets _observation ;;
  success <- gets successful_grasp ;;
  ret {| res_observation := o; res_reward := reward;
         res_done := done; res_is_success := success |}.

Definition real_step (action : list float) : M env step_result :=
  physics_tick action ;;; grasp_trigger ;;; report.

(** The command [real_action] that [step] builds from the action. *)
Definition real_action (action : pyaction) : M env (list float) :=
  discrete <- gets (fun e => is_discrete (cfg e)) ;;
  if discrete then
    match action with
    | ActIndex action =>
        let delta_pos := 0.01 in
        let delta_angle := 0.01 in
        dx <- lift (py_getitem [- delta_pos; delta_pos; 0; 0; 0; 0; 0; 0] action) ;;
        dy <- lift (py_getitem [0; 0; - delta_pos; delta_pos; 0; 0; 0; 0] action) ;;
        downward <- gets (fun e => is_continuous_downward_enabled (cfg e)) ;;
        dz <- (if downward then ret (- delta_pos)
               else lift (py_getitem [0; 0; 0; 0; - delta_pos; delta_pos; 0; 0] action)) ;;
        dyaw <- lift (py_getitem [0; 0; 0; 0; 0; 0; 0; - delta_angle; delta_angle] action) ;;
        let f := 1 in
        ret [dx; dy; dz; 0; 0; dyaw; f]
    | ActVector _ => lift (Raise TypeError)
    end
  else
    match action with
    | ActVector action =>
        let delta_pos := 1.5 in
        a0 <- lift (py_getitem action 0) ;;
        a1 <- lift (py_getitem action 1) ;;
        a2 <- lift (py_getitem action 2) ;;
        a3 <- lift (py_getitem action 3) ;;
        a4 <- lift (py_getitem action 4) ;;
        a5 <- lift (py_getitem action 5) ;;
        let f := 1 in
        ret [a0 * delta_pos; a1 * delta_pos; a2 * delta_pos;
             a3 * delta_pos; a4 * delta_pos; a5 * delta_pos; f]
    | ActIndex _ => lift (Raise TypeError)
    end.

(** [step]: both branches end in [return self.real_step(real_action)]. *)
Definition step (action : pyaction) : M env step_result :=
  cmd <- real_action action ;;
  real_step cmd.

End WithBackend.
End GraspHER.

(** ** A small concrete backend

    A point gripper, a point block and one finger value.  The block stays
    where it is until the finger value is at most one half while the
    gripper is within 0.12 of it on every axis; from then on it moves
    with the gripper.  Used to run the code on concrete inputs. *)

Module Toy.

Record toy_world : Type := {
  home : vec3;
  gripper : vec3;
  block : vec3;
  finger : float
}.

Definition nth_float (l : list float) (n : nat) : float := nth n l 0.

Definition close_to (a b : float) : bool := PrimFloat.abs (a - b) <=? 0.12.

Definition toy_apply_action (cmd : list float) (w : toy_world) : toy_world :=
  {| home := home w;
     gripper := (vx (gripper w) + nth_float cmd 0,
                 vy (gripper w) + nth_float cmd 1,
                 vz (gripper w) + nth_float cmd 2);
     block := block w;
     finger := nth_float cmd 6 |}.

Definition toy_stepSimulation (w : toy_world) : toy_world :=
  if (finger w <=? 0.5)
     && close_to (vx (gripper w)) (vx (block w))
     && close_to (vy (gripper w)) (vy (block w))
     && close_to (vz (gripper w)) (vz (block w))
  then {| home := home w; gripper := gripper w; block := gripper w;
          finger := finger w |}
  else w.

Definition toy_loadURDF_cube (pos : list float) (orn : option quat)
    (w : toy_world) : Z * toy_world :=
  (2%Z, {| home := home w; gripper := gripper w;
           block := (nth_float pos 0, nth_float pos 1, nth_float pos 2);
           finger := finger w |}).

Definition toy_new_PandaEnv (base : vec3) (time_step : float) (use_ik : bool)
    (joints : Z) (w : toy_world) : toy_world :=
  {| home := home w; gripper := home w; block := block w; finger := 1 |}.

Definition toy_norm (l : list float) : float :=
  sqrt (fold_left (fun acc x => acc + x * x) l 0).

Definition toy : Backend := {|
  world := toy_world;
  resetSimulation := fun w => w;
  setPhysicsEngineParameter := fun _ w => w;
  setTimeStep := fun _ w => w;
  loadURDF_plane := fun w => w;
  loadURDF_table := fun w => (1%Z, w);
  getVisualShapeData := fun _ _ => ((1.5, 1, 0.32), (0, 0, 0.3));
  loadURDF_cube := toy_loadURDF_cube;
  getQuaternionFromEuler := fun _ => (0, 0, 0, 1);
  setGravity := fun _ w => w;
  stepSimulation := toy_stepSimulation;
  getBasePositionAndOrientation := fun _ w => (block w, (0, 0, 0, 1));
  new_PandaEnv := toy_new_PandaEnv;
  workspace_lim := fun _ => ((0.5, 0.9), (-0.3, 0.3), (0.63, 1.5));
  set_workspace_lim_z_low := fun _ w => w;
  get_observation := fun w =>
    [vx (gripper w); vy (gripper w); vz (gripper w); 0; 0; 0; finger w];
  apply_action := toy_apply_action;
  update_gripper_pos := fun w => w;
  getLinkState_gripper := gripper;
  random_uniform := fun lo hi w => (lo + (hi - lo) * 0.5, w);
  linalg_norm := toy_norm
|}.

(** A simulator connection whose robot starts with the end-effector at
    [h]. *)
Definition connect (h : vec3) : toy_world :=
  {| home := h; gripper := h; block := (0, 0, 0); finger := 1 |}.

Definition grasp_config (discrete : bool) (max_steps : Z) (rt : string)
  : Grasp.config :=
  {| Grasp.use_ik := true; Grasp.is_discrete := discrete;
     Grasp.action_repeat_amount := 1; Grasp.is_rendering := false;
     Grasp.max_step_count := max_steps;
     Grasp.is_target_position_fixed := true;
     Grasp.num_controlled_joints := 7;
     Grasp.is_continuous_downward_enabled := false;
     Grasp.reward_type := rt |}.

Definition her_config (discrete : bool) (max_steps : Z) : GraspHER.config :=
  {| GraspHER.use_ik := true; GraspHER.is_discrete := discrete;
     GraspHER.action_repeat_amount := 1; GraspHER.is_rendering := false;
     GraspHER.max_step_count := max_steps;
     GraspHER.is_target_position_fixed := true;
     GraspHER.num_controlled_joints := 7;
     GraspHER.is_continuous_downward_enabled := false |}.

(** The end-effector far above the block, and just above it. *)
Definition far : vec3 := (0.7, 0.25, 1).
Definition near : vec3 := (0.7, 0.25, 0.7).

(** The end-effector above the block but 0.1 to its side. *)
Definition aside : vec3 := (0.6, 0.25, 1).

(** Variant 1 right after [__init__], discrete actions. *)
Definition grasp_env (h : vec3) (max_steps : Z) (rt : string) : Grasp.env (B := toy) :=
  Grasp.init (B := toy) (grasp_config true max_steps rt) (connect h).

(** The HER variant right after [__init__], discrete actions and a fixed
    target position. *)
Definition her_env (h : vec3) (max_steps : Z) : GraspHER.env (B := toy) :=
  snd (GraspHER.init (B := toy) (her_config true max_steps) (connect h)).

(** What a call of [step] of variant 1 returned: reward, [done] and
    [is_success], or nothing when it raised. *)
Definition summary (r : result Grasp.step_result) : option (float * bool * bool) :=
  match r with
  | Ok x => Some (Grasp.res_reward x, Grasp.res_done x, Grasp.res_is_success x)
  | Raise _ => None
  end.

(** Variant 1 with continuous actions, right after [__init__]. *)
Definition grasp_env_continuous : Grasp.env (B := toy) :=
  Grasp.init (B := toy) (grasp_config false 5 "dense") (connect far).

(** The variant-1 object after a grasp from just above the block. *)
Definition grasp_env_grasped : Grasp.env (B := toy) :=
  snd (Grasp.step (B := toy) (ActIndex 0) (grasp_env near 5 "dense")).

End Toy.


(** ** Vocabulary of the statements *)

Section Vocabulary.
Context {B : Backend}.

(** The value [get_distance] computes when every index is in range. *)
Definition distance_between (axis point_a point_b : list float) : float :=
  linalg_norm
    [nth 0 axis 0 * nth 0 point_a 0 - nth 0 axis 0 * nth 0 point_b 0;
     nth 1 axis 0 * nth 1 point_a 0 - nth 1 axis 0 * nth 1 point_b 0;
     nth 2 axis 0 * nth 2 point_a 0 - nth 2 axis 0 * nth 2 point_b 0].

(** The successive finger commands of [close_fingers]. *)
Fixpoint finger_angles (iters : nat) (anim_length : Z) (finger_angle : float)
  : list float :=
  match iters with
  | O => []
  | S k => finger_angle
           :: finger_angles k anim_length (next_finger_angle anim_length finger_angle)
  end.

(** The world after the commands [cmds], one tick each. *)
Definition run_ticks (cmds : list (list float)) (w : world) : world :=
  fold_left (fun w cmd => tick cmd w) cmds w.

(** One of the two [break] conditions of [lift_gripper] holds. *)
Definition lift_cutoff (target_object_id : Z) (ee_cutoff : float) (w : world) : bool :=
  (0.8 <? vz (fst (getBasePositionAndOrientation target_object_id w)))
  || (ee_cutoff <? vz (getLinkState_gripper w)).

(** The world after [n] lift ticks. *)
Definition lifted (n : nat) (w : world) : world :=
  Nat.iter n (tick lift_action) w.

(** The animation as the simulator sees it.  Closing: one physics step
    per finger value of [angles], after a command that is zero in its six
    motion entries and carries the finger value in the seventh. *)
Definition fingers_closed (angles : list float) (w : world) : world :=
  fold_left
    (fun w angle => stepSimulation (apply_action [0; 0; 0; 0; 0; 0; angle] w))
    angles w.

(** Lifting: [n] physics steps, each after the command that moves the
    end-effector up by 0.005 and does nothing else. *)
Definition raised (n : nat) (w : world) : world :=
  Nat.iter n (fun w => stepSimulation (apply_action [0; 0; 0.005; 0; 0; 0; 0] w)) w.

(** Variant 1: what the getters read off an observation dictionary. *)
Definition gripper_pos_of (d : Grasp.obs_dict) : list float :=
  py_slice (Grasp.observation d) 0 3.

Definition vertical_distance (d : Grasp.obs_dict) : float :=
  distance_between [0; 0; 1] (gripper_pos_of d) (list_of_vec3 (Grasp.achieved_goal d)).

Definition horizontal_distance (d : Grasp.obs_dict) : float :=
  distance_between [1; 1; 0] (gripper_pos_of d) (list_of_vec3 (Grasp.achieved_goal d)).

Definition full_distance (d : Grasp.obs_dict) : float :=
  distance_between [1; 1; 1] (gripper_pos_of d) (list_of_vec3 (Grasp.achieved_goal d)).

(** The achieved target height is at least the desired one. *)
Definition height_reached (d : Grasp.obs_dict) : bool :=
  vz (Grasp.desired_goal d) <=? vz (Grasp.achieved_goal d).

(** The world after the whole animation of variant 1, started in [e]. *)
Definition grasped_world (e : Grasp.env) : world :=
  lift_gripper_world 100 (Grasp._target_object_id e) 2.5
    (close_fingers_world 100 (update_gripper_pos (Grasp.sim e))).

(** The state in which [real_step] checks the distance. *)
Definition after_tick (cmd : list float) (e : Grasp.env) : Grasp.env :=
  snd (Grasp.physics_tick cmd e).

(** The dense reward as the specification words it: weighted horizontal
    distance and flat penalty outside the fine threshold, weighted full
    distance inside, and a bonus on success. *)
Definition dense_reward (weight threshold penalty bonus : float)
    (horizontal full : float) (success : bool) : float :=
  let base := if horizontal <=? threshold then - (full * weight)
              else - horizontal * weight - penalty in
  if success then base + bonus else base.

(** The state after the body of the distance check of variant 1: one more
    attempt counted, the animation run, the observation refreshed. *)
Definition grasp_and_observe (e : Grasp.env) : Grasp.env :=
  let e1 := Grasp.set_grasp_attempts_count (Grasp._grasp_attempts_count e + 1)%Z e in
  let e2 := Grasp.set_attempted_grasp true (Grasp.set_sim (grasped_world e1) e1) in
  Grasp.set_observation (Grasp.ObsDict (Grasp.get_extended_observation e2)) e2.

(** The observation of [e] is a dictionary built for the goal of [e]. *)
Definition observed (e : Grasp.env) (d : Grasp.obs_dict) : Prop :=
  Grasp._observation e = Grasp.ObsDict d
  /\ (3 <= List.length (Grasp.observation d))%nat
  /\ Grasp.desired_goal d = Grasp._goal_position e.

(** The state in which [real_step] of variant 1 builds its results. *)
Definition after_trigger (cmd : list float) (e : Grasp.env) : Grasp.env :=
  snd (Grasp.grasp_trigger (after_tick cmd e)).

(** The HER variant: a flat observation vector has the end-effector at
    entries 0..2 and the target at entries 7..9. *)
Definition her_gripper_pos (l : list float) : list float := py_slice l 0 3.
Definition her_target_pos (l : list float) : list float := py_slice l 7 10.
Definition her_target_height (l : list float) : float := nth 9 l 0.

(** Calling [step] with each action in turn, whatever the calls return
    or raise. *)
Fixpoint Grasp_steps (actions : list pyaction) (e : Grasp.env) : Grasp.env :=
  match actions with
  | [] => e
  | a :: rest => Grasp_steps rest (snd (Grasp.step a e))
  end.

Fixpoint HER_steps (actions : list pyaction) (e : GraspHER.env) : GraspHER.env :=
  match actions with
  | [] => e
  | a :: rest => HER_steps rest (snd (GraspHER.step a e))
  end.

(** An episode of variant 1 that has not signalled termination: the
    state after [reset], or after a [step] that returned [done = False]. *)
Inductive running : Grasp.env -> Prop :=
| running_reset (e : Grasp.env) : running (Grasp.reset e)
| running_step (e e' : Grasp.env) (a : pyaction) (r : Grasp.step_result) :
    running e ->
    Grasp.step a e = (Ok r, e') ->
    Grasp.res_done r = false ->
    running e'.


(** The world after the whole animation of the HER variant. *)
Definition her_grasped_world (e : GraspHER.env) : world :=
  lift_gripper_world 100 (GraspHER.target_object_id e) 2
    (close_fingers_world 100 (update_gripper_pos (GraspHER.sim e))).

(** The distance between end-effector and target in the simulated world,
    along the axes selected by [axis]. *)
Definition world_distance (axis : list float) (target_object_id : Z) (w : world) : float :=
  distance_between axis (list_of_vec3 (getLinkState_gripper w))
    (list_of_vec3 (fst (getBasePositionAndOrientation target_object_id w))).

(** A call on a variant-1 object: [step] with an action, or [reset]. *)
Inductive call : Type :=
| CallStep (a : pyaction)
| CallReset.

(** Making each call in turn, whatever the calls return or raise. *)
Fixpoint Grasp_calls (calls : list call) (e : Grasp.env) : Grasp.env :=
  match calls with
  | [] => e
  | CallStep a :: rest => Grasp_calls rest (snd (Grasp.step a e))
  | CallReset :: rest => Grasp_calls rest (Grasp.reset e)
  end.

(** [step] of variant 1 turns the action into a command in state [e]. *)
Definition accepted (e : Grasp.env) (a : pyaction) : bool :=
  match fst (Grasp.real_action a e) with
  | Ok _ => true
  | Raise _ => false
  end.

(** The moves a discrete action of variant 1 can command along x, y, z. *)
Definition unit_moves : list (float * float * float) :=
  [(0, 0, 0); (- 0.01, 0, 0); (0.01, 0, 0); (0, - 0.01, 0); (0, 0.01, 0);
   (0, 0, - 0.01); (0, 0, 0.01)].

(** The same in the plane, for the mode that always moves down. *)
Definition planar_moves : list (float * float) :=
  [(0, 0); (- 0.01, 0); (0.01, 0); (0, - 0.01); (0, 0.01)].

End Vocabulary.

(** [|f - (1 - i / 100)| <= 1e-15] for the [i]-th entry [f] of [l], from [i]. *)
Fixpoint linear_from (i : Z) (l : list float) : bool :=
  match l with
  | [] => true
  | f :: l =>
      (PrimFloat.abs (f - (1 - float_of_Z i / 100)) <=? 1e-15)
      && linear_from (i + 1) l
  end.

(** ** Python lists and the method monad *)

Lemma py_getitem_nth (A : Type) (l : list A) (i : Z) (d : A) :
  (0 <= i < Z.of_nat (List.length l))%Z ->
  py_getitem l i = Ok (nth (Z.to_nat i) l d).
Proof.
  intros [H0 H1]. unfold py_getitem.
  destruct (i <? 0)%Z eqn:Hneg; [apply Z.ltb_lt in Hneg; lia|].
  destruct ((i <? 0) || (Z.of_nat (List.length l) <=? i))%Z eqn:Hout.
  - apply orb_true_iff in Hout as [Hout|Hout];
      [apply Z.ltb_lt in Hout | apply Z.leb_le in Hout]; lia.
  - destruct (nth_error l (Z.to_nat i)) as [x|] eqn:Hx.
    + now rewrite (nth_error_nth _ _ d Hx).
    + apply nth_error_None in Hx. lia.
Qed.

Lemma py_getitem_wraps (A : Type) (l : list A) (i : Z) (d : A) :
  (- Z.of_nat (List.length l) <= i < 0)%Z ->
  py_getitem l i = Ok (nth (Z.to_nat (i + Z.of_nat (List.length l))) l d).
Proof.
  intros [H0 H1]. unfold py_getitem.
  destruct (i <? 0)%Z eqn:Hneg; [|apply Z.ltb_ge in Hneg; lia].
  set (n := Z.of_nat (List.length l)) in *.
  destruct ((i + n <? 0) || (n <=? i + n))%Z eqn:Hout.
  - apply orb_true_iff in Hout as [Hout|Hout];
      [apply Z.ltb_lt in Hout | apply Z.leb_le in Hout]; lia.
  - destruct (nth_error l (Z.to_nat (i + n))) as [x|] eqn:Hx.
    + now rewrite (nth_error_nth _ _ d Hx).
    + apply nth_error_None in Hx. lia.
Qed.

Lemma py_getitem_out_of_range (A : Type) (l : list A) (i : Z) :
  (i < - Z.of_nat (List.length l) \/ Z.of_nat (List.length l) <= i)%Z ->
  py_getitem l i = Raise IndexError.
Proof.
  intros H. unfold py_getitem.
  set (n := Z.of_nat (List.length l)) in *.
  assert (Hn : (0 <= n)%Z) by (subst n; lia).
  destruct (i <? 0)%Z eqn:Hneg.
  - apply Z.ltb_lt in Hneg.
    replace ((i + n <? 0) || (n <=? i + n))%Z with true; [reflexivity|].
    symmetry. apply orb_true_iff. left. apply Z.ltb_lt. lia.
  - apply Z.ltb_ge in Hneg.
    replace ((i <? 0) || (n <=? i))%Z with true; [reflexivity|].
    symmetry. apply orb_true_iff. right. apply Z.leb_le. lia.
Qed.

Lemma py_slice_front3 (A : Type) (l : list A) (d : A) :
  (3 <= List.length l)%nat ->
  py_slice l 0 3 = [nth 0 l d; nth 1 l d; nth 2 l d].
Proof.
  destruct l as [|a [|b [|c l]]]; simpl; intros H; try lia. reflexivity.
Qed.

Lemma bind_ok (S A C : Type) (c : M S A) (k : A -> M S C) (s s' : S) (a : A) :
  c s = (Ok a, s') -> bind c k s = k a s'.
Proof. unfold bind. now intros ->. Qed.

Lemma bind_raise (S A C : Type) (c : M S A) (k : A -> M S C) (s s' : S) (e : pyerror) :
  c s = (Raise e, s') -> bind c k s = (Raise e, s').
Proof. unfold bind. now intros ->. Qed.

Lemma bind_inv_ok (S A C : Type) (c : M S A) (k : A -> M S C) (s s'' : S) (b : C) :
  bind c k s = (Ok b, s'') ->
  exists a s', c s = (Ok a, s') /\ k a s' = (Ok b, s'').
Proof.
  unfold bind. destruct (c s) as [[a|e] s'].
  - intros H. now exists a, s'.
  - discriminate.
Qed.

Lemma bind_gets (S A C : Type) (f : S -> A) (k : A -> M S C) (s : S) :
  bind (gets f) k s = k (f s) s.
Proof. reflexivity. Qed.

Lemma bind_modify (S C : Type) (f : S -> S) (k : unit -> M S C) (s : S) :
  bind (modify f) k s = k tt (f s).
Proof. reflexivity. Qed.

Lemma bind_ret (S A C : Type) (a : A) (k : A -> M S C) (s : S) :
  bind (ret a) k s = k a s.
Proof. reflexivity. Qed.

Lemma bind_lift_ok (S A C : Type) (a : A) (k : A -> M S C) (s : S) :
  bind (lift (Ok a)) k s = k a s.
Proof. reflexivity. Qed.

Lemma bind_lift_raise (S A C : Type) (err : pyerror) (k : A -> M S C) (s : S) :
  bind (lift (Raise err)) k s = (Raise err, s).
Proof. reflexivity. Qed.

Lemma bind_lift (S A C : Type) (r : result A) (k : A -> M S C) (s : S) :
  bind (lift r) k s = match r with Ok a => k a s | Raise err => (Raise err, s) end.
Proof. destruct r; reflexivity. Qed.

(** Runs the binds of a command builder, splitting on every list access
    and flag. *)
Ltac run_command :=
  repeat (repeat first [rewrite bind_lift | rewrite bind_gets | rewrite bind_ret];
          match goal with
          | |- context [match ?r with Ok _ => _ | Raise _ => _ end] =>
              destruct r; try reflexivity
          | |- context [if ?b then _ else _] => destruct b; try reflexivity
          end).

(** ** Floating-point order *)

Lemma SFcompare_Lt_swap (a b : spec_float) :
  SFcompare a b = Some Lt -> SFcompare b a = Some Gt.
Proof.
  destruct a as [sa|sa| |sa ma ea], b as [sb|sb| |sb mb eb]; simpl;
    try destruct sa; try destruct sb; try discriminate; try reflexivity.
  all: fold (Pos.compare ma mb); fold (Pos.compare mb ma);
    rewrite (Z.compare_antisym ea eb), (Pos.compare_antisym ma mb);
    destruct (Z.compare ea eb), (Pos.compare ma mb); simpl;
    try discriminate; reflexivity.
Qed.

(** A float strictly above [a] is not at or below it. *)
Lemma ltb_not_leb (a b : float) : (a <? b) = true -> (b <=? a) = false.
Proof.
  rewrite FloatAxioms.ltb_spec, FloatAxioms.leb_spec. unfold SFltb, SFleb.
  destruct (SFcompare (Prim2SF a) (Prim2SF b)) as [[]|] eqn:E;
    (try discriminate); intros _.
  now rewrite (SFcompare_Lt_swap _ _ E).
Qed.

(** ** The animation loops *)

Section AnimationFacts.
Context {B : Backend}.

Lemma close_fingers_loop_spec (n : nat) (anim_length : Z) :
  forall (f : float) (w : world),
    close_fingers_loop n anim_length f w
    = (Nat.iter n (next_finger_angle anim_length) f,
       run_ticks (map grasp_action (finger_angles n anim_length f)) w).
Proof.
  induction n as [|n IH]; intros f w; [reflexivity|].
  cbn [close_fingers_loop finger_angles map]. rewrite IH.
  rewrite Nat.iter_succ_r. reflexivity.
Qed.

Lemma lifted_shift (k : nat) (w : world) :
  lifted k (tick lift_action w) = lifted (S k) w.
Proof. unfold lifted. now rewrite Nat.iter_succ_r. Qed.

Lemma lift_gripper_loop_spec (n : nat) (id : Z) (cutoff : float) :
  forall w : world,
    exists k : nat,
      (k <= n)%nat /\ (0 < n -> 0 < k)%nat
      /\ lift_gripper_loop n id cutoff w = lifted k w
      /\ (forall j, (0 < j < k)%nat -> lift_cutoff id cutoff (lifted j w) = false)
      /\ (k < n -> lift_cutoff id cutoff (lifted k w) = true)%nat.
Proof.
  induction n as [|n IH]; intros w.
  - exists 0%nat. repeat split; try lia; reflexivity.
  - cbn [lift_gripper_loop].
    destruct (0.8 <? vz (fst (getBasePositionAndOrientation id (tick lift_action w))))
      eqn:Hblock.
    + exists 1%nat. repeat split; try lia.
      intros _. unfold lift_cutoff. cbn. now rewrite Hblock.
    + destruct (cutoff <? vz (getLinkState_gripper (tick lift_action w))) eqn:Hee.
      * exists 1%nat. repeat split; try lia.
        intros _. unfold lift_cutoff. cbn. rewrite Hee. apply orb_true_r.
      * destruct (IH (tick lift_action w)) as (k & Hk & Hpos & Heq & Hrun & Hstop).
        exists (S k). repeat split; try lia.
        -- now rewrite Heq, lifted_shift.
        -- intros j Hj. destruct j as [|j]; [lia|].
           destruct j as [|j].
           ++ unfold lift_cutoff. cbn. now rewrite Hblock, Hee.
           ++ rewrite <- lifted_shift. apply Hrun. lia.
        -- intros Hlt. rewrite <- lifted_shift. apply Hstop. lia.
Qed.

(** The loops send the commands the statements spell out. *)
Lemma fingers_closed_run (angles : list float) :
  forall w : world,
    run_ticks (map grasp_action angles) w = fingers_closed angles w.
Proof.
  induction angles as [|f angles IH]; intros w; [reflexivity|].
  unfold run_ticks, fingers_closed in *. cbn [map fold_left]. apply IH.
Qed.

Lemma raised_run (n : nat) (w : world) : lifted n w = raised n w.
Proof. reflexivity. Qed.

End AnimationFacts.

(** ** Variant 1 *)

Section GraspFacts.
Context {B : Backend}.

Lemma Grasp_observation_length (e : Grasp.env) :
  (3 <= List.length (Grasp.observation (Grasp.get_extended_observation e)))%nat.
Proof.
  unfold Grasp.get_extended_observation. cbn [Grasp.observation].
  rewrite !length_app. cbn. lia.
Qed.

Lemma get_distance_run (S : Type) (axis a b : list float) (s : S) :
  List.length axis = 3%nat -> List.length a = 3%nat -> List.length b = 3%nat ->
  get_distance a b axis s = (Ok (distance_between axis a b), s).
Proof.
  destruct axis as [|x0 [|x1 [|x2 [|]]]]; try discriminate.
  destruct a as [|a0 [|a1 [|a2 [|]]]]; try discriminate.
  destruct b as [|b0 [|b1 [|b2 [|]]]]; try discriminate.
  reflexivity.
Qed.

Lemma gripper_pos_of_length (d : Grasp.obs_dict) :
  (3 <= List.length (Grasp.observation d))%nat ->
  List.length (gripper_pos_of d) = 3%nat.
Proof.
  intros H. unfold gripper_pos_of. now rewrite (py_slice_front3 _ 0 H).
Qed.

(** The three distance getters return, and leave the state alone. *)
Lemma Grasp_distances_run (e : Grasp.env) (d : Grasp.obs_dict) :
  Grasp._observation e = Grasp.ObsDict d ->
  (3 <= List.length (Grasp.observation d))%nat ->
  Grasp.get_vertical_distance_to_target e = (Ok (vertical_distance d), e)
  /\ Grasp.get_horizontal_distance_to_target e = (Ok (horizontal_distance d), e)
  /\ Grasp.get_distance_to_target e = (Ok (full_distance d), e).
Proof.
  intros Hobs Hlen.
  pose proof (gripper_pos_of_length d Hlen) as Hg.
  unfold Grasp.get_vertical_distance_to_target,
    Grasp.get_horizontal_distance_to_target, Grasp.get_distance_to_target,
    Grasp.get_target_pos, Grasp.get_gripper_pos, bind, gets, lift, ret.
  repeat progress (cbv beta iota; rewrite ?Hobs; cbn [Grasp.obs_item]).
  fold (gripper_pos_of d).
  repeat split; now rewrite get_distance_run.
Qed.

Lemma Grasp_perform_grasp_run (e : Grasp.env) :
  Grasp.perform_grasp e
  = (Ok tt, Grasp.set_attempted_grasp true (Grasp.set_sim (grasped_world e) e)).
Proof. reflexivity. Qed.

Lemma Grasp_physics_tick_run (cmd : list float) (e : Grasp.env) :
  Grasp.physics_tick cmd e = (Ok tt, after_tick cmd e).
Proof. reflexivity. Qed.

Lemma Grasp_grasp_trigger_run (e : Grasp.env) (d : Grasp.obs_dict) :
  Grasp._observation e = Grasp.ObsDict d ->
  (3 <= List.length (Grasp.observation d))%nat ->
  Grasp.grasp_trigger e
  = (Ok tt, if vertical_distance d <=? Grasp._distance_to_grasp
            then grasp_and_observe e else e).
Proof.
  intros Hobs Hlen.
  destruct (Grasp_distances_run e Hobs Hlen) as (Hv & _ & _).
  unfold Grasp.grasp_trigger. erewrite bind_ok by exact Hv.
  destruct (vertical_distance d <=? Grasp._distance_to_grasp); reflexivity.
Qed.

Lemma Grasp_is_success_run (object_position goal_position : vec3) (e : Grasp.env) :
  Grasp._is_success object_position goal_position e
  = (Ok (Grasp._attempted_grasp e && (vz goal_position <=? vz object_position)), e).
Proof.
  unfold Grasp._is_success. rewrite bind_gets.
  destruct (Grasp._attempted_grasp e); [|reflexivity].
  destruct (vz goal_position <=? vz object_position); reflexivity.
Qed.

Lemma Grasp_compute_reward_run (e : Grasp.env) (d : Grasp.obs_dict)
    (goal : vec3) (info_is_success : bool) :
  Grasp._observation e = Grasp.ObsDict d ->
  (3 <= List.length (Grasp.observation d))%nat ->
  Grasp.compute_reward (Grasp.achieved_goal d) goal info_is_success e
  = (Ok (if String.eqb (Grasp.reward_type (Grasp.cfg e)) "sparse"
         then Grasp.float32_of_bool
                (Grasp._attempted_grasp e && (vz goal <=? vz (Grasp.achieved_goal d)))
         else dense_reward 10 0.025 10 10000
                (horizontal_distance d) (full_distance d) info_is_success), e).
Proof.
  intros Hobs Hlen.
  destruct (Grasp_distances_run e Hobs Hlen) as (_ & Hh & Hf).
  unfold Grasp.compute_reward. rewrite bind_gets.
  destruct (String.eqb (Grasp.reward_type (Grasp.cfg e)) "sparse").
  - erewrite bind_ok by apply Grasp_is_success_run. reflexivity.
  - erewrite bind_ok by exact Hh. unfold dense_reward.
    destruct (horizontal_distance d <=? 0.025).
    + erewrite bind_ok by (erewrite bind_ok by exact Hf; reflexivity).
      destruct info_is_success; reflexivity.
    + rewrite bind_ret. destruct info_is_success; reflexivity.
Qed.

(** What [report] returns in a state whose observation is the
    dictionary [d], built for the current goal. *)
Lemma Grasp_report_run (e : Grasp.env) (d : Grasp.obs_dict) :
  Grasp._observation e = Grasp.ObsDict d ->
  (3 <= List.length (Grasp.observation d))%nat ->
  Grasp.desired_goal d = Grasp._goal_position e ->
  exists (r : Grasp.step_result) (e' : Grasp.env),
    Grasp.report e = (Ok r, e')
    /\ Grasp.res_observation r = Grasp.ObsDict d
    /\ Grasp.res_is_success r = Grasp._attempted_grasp e && height_reached d
    /\ Grasp.res_done r = Grasp._termination e'
    /\ Grasp.res_reward r
       = (if String.eqb (Grasp.reward_type (Grasp.cfg e)) "sparse"
          then Grasp.float32_of_bool (Grasp.res_is_success r)
          else dense_reward 10 0.025 10 10000
                 (horizontal_distance d) (full_distance d) (Grasp.res_is_success r))
    /\ Grasp._is_successful_grasp e'
       = Grasp._is_successful_grasp e || Grasp.res_is_success r
    /\ Grasp.cfg e' = Grasp.cfg e
    /\ Grasp._attempted_grasp e' = Grasp._attempted_grasp e
    /\ Grasp._env_step_counter e' = Grasp._env_step_counter e
    /\ Grasp._grasp_attempts_count e' = Grasp._grasp_attempts_count e
    /\ Grasp._observation e' = Grasp._observation e
    /\ Grasp.sim e' = Grasp.sim e.
Proof.
  intros Hobs Hlen Hgoal.
  unfold Grasp.report.
  rewrite bind_gets, Hobs. cbn [Grasp.obs_item]. rewrite !bind_lift_ok.
  erewrite bind_ok by apply Grasp_is_success_run.
  fold (height_reached d).
  set (ok := Grasp._attempted_grasp e && height_reached d).
  set (e1 := if ok
             then Grasp.set_successful_grasp_count
                    (Grasp._successful_grasp_count e + 1)%Z
                    (Grasp.set_is_successful_grasp true e)
             else e).
  assert (Hmark : (if ok
                   then (modify (Grasp.set_is_successful_grasp true) ;;;
                         modify (fun e => Grasp.set_successful_grasp_count
                                   (Grasp._successful_grasp_count e + 1)%Z e))%py
                   else ret tt) e = (Ok tt, e1))
    by (subst e1; destruct ok; reflexivity).
  erewrite bind_ok by exact Hmark.
  assert (Hobs1 : Grasp._observation e1 = Grasp.ObsDict d)
    by (subst e1; destruct ok; exact Hobs).
  assert (Hframe : Grasp.cfg e1 = Grasp.cfg e
                   /\ Grasp._attempted_grasp e1 = Grasp._attempted_grasp e
                   /\ Grasp._env_step_counter e1 = Grasp._env_step_counter e
                   /\ Grasp._grasp_attempts_count e1 = Grasp._grasp_attempts_count e
                   /\ Grasp._goal_position e1 = Grasp._goal_position e
                   /\ Grasp.sim e1 = Grasp.sim e
                   /\ Grasp._is_successful_grasp e1 = Grasp._is_successful_grasp e || ok)
    by (subst e1; destruct ok; cbn; repeat split;
        (now rewrite orb_true_r) || (now rewrite orb_false_r)).
  destruct Hframe as (Hc & Ha & Hn & Hg & Hp & Hs & Hi).
  rewrite bind_gets, Hobs1. cbn [Grasp.obs_item]. rewrite bind_lift_ok, bind_gets.
  erewrite bind_ok by (apply Grasp_compute_reward_run; [exact Hobs1 | exact Hlen]).
  rewrite bind_gets.
  set (e2 := if Grasp._termination e1
             then Grasp.set_episode_number (Grasp._episode_number e1 + 1)%Z e1
             else e1).
  assert (Hdone : (if Grasp._termination e1
                   then modify (fun e => Grasp.set_episode_number
                                           (Grasp._episode_number e + 1)%Z e)
                   else ret tt) e1 = (Ok tt, e2))
    by (subst e2; destruct (Grasp._termination e1); reflexivity).
  erewrite bind_ok by exact Hdone.
  rewrite bind_gets.
  assert (Hsame : Grasp._termination e2 = Grasp._termination e1
                  /\ Grasp._observation e2 = Grasp._observation e1
                  /\ Grasp.cfg e2 = Grasp.cfg e1
                  /\ Grasp._attempted_grasp e2 = Grasp._attempted_grasp e1
                  /\ Grasp._env_step_counter e2 = Grasp._env_step_counter e1
                  /\ Grasp._grasp_attempts_count e2 = Grasp._grasp_attempts_count e1
                  /\ Grasp.sim e2 = Grasp.sim e1
                  /\ Grasp._is_successful_grasp e2 = Grasp._is_successful_grasp e1)
    by (subst e2; destruct (Grasp._termination e1) eqn:Ht;
        repeat split; exact Ht).
  destruct Hsame as (Ht2 & Ho2 & Hc2 & Ha2 & Hn2 & Hg2 & Hs2 & Hi2).
  eexists. exists e2. split; [reflexivity|].
  cbn [Grasp.res_observation Grasp.res_is_success Grasp.res_done Grasp.res_reward].
  rewrite Ho2, Hobs1, Ht2, Hc, Ha, Hp, <- Hgoal, Hc2, Ha2, Hn2, Hg2, Hs2, Hi2.
  fold (height_reached d). fold ok.
  repeat split; try reflexivity; assumption.
Qed.

(** Building the command does not touch the state. *)
Lemma Grasp_real_action_state (a : pyaction) (e : Grasp.env) :
  snd (Grasp.real_action a e) = e.
Proof.
  unfold Grasp.real_action. rewrite bind_gets.
  destruct (Grasp.is_discrete (Grasp.cfg e)), a as [i|v];
    try reflexivity; cbv zeta; run_command.
Qed.

Lemma after_tick_observed (cmd : list float) (e : Grasp.env) :
  exists d, observed (after_tick cmd e) d.
Proof.
  eexists. split; [reflexivity|]. split; [apply Grasp_observation_length|reflexivity].
Qed.

Lemma grasp_and_observe_observed (e : Grasp.env) :
  exists d, observed (grasp_and_observe e) d.
Proof.
  eexists. split; [reflexivity|]. split; [apply Grasp_observation_length|reflexivity].
Qed.

Lemma after_trigger_cases (cmd : list float) (e : Grasp.env) (d1 : Grasp.obs_dict) :
  observed (after_tick cmd e) d1 ->
  Grasp.grasp_trigger (after_tick cmd e) = (Ok tt, after_trigger cmd e)
  /\ after_trigger cmd e
     = (if vertical_distance d1 <=? Grasp._distance_to_grasp
        then grasp_and_observe (after_tick cmd e) else after_tick cmd e).
Proof.
  intros (Hobs & Hlen & _). unfold after_trigger.
  rewrite (Grasp_grasp_trigger_run _ Hobs Hlen). split; reflexivity.
Qed.

Lemma after_trigger_observed (cmd : list float) (e : Grasp.env) :
  exists d, observed (after_trigger cmd e) d.
Proof.
  destruct (after_tick_observed cmd e) as (d1 & H1).
  destruct (after_trigger_cases H1) as (_ & ->).
  destruct (vertical_distance d1 <=? Grasp._distance_to_grasp).
  - apply grasp_and_observe_observed.
  - now exists d1.
Qed.

Lemma Grasp_real_step_unfold (cmd : list float) (e : Grasp.env) :
  Grasp.real_step cmd e = Grasp.report (after_trigger cmd e).
Proof.
  destruct (after_tick_observed cmd e) as (d1 & H1).
  destruct (after_trigger_cases H1) as (Hrun & _).
  unfold Grasp.real_step.
  erewrite bind_ok by apply Grasp_physics_tick_run.
  erewrite bind_ok by exact Hrun. reflexivity.
Qed.

(** [real_step] of variant 1 always returns. *)
Lemma Grasp_real_step_returns (cmd : list float) (e : Grasp.env) :
  exists r e', Grasp.real_step cmd e = (Ok r, e').
Proof.
  rewrite Grasp_real_step_unfold.
  destruct (after_trigger_observed cmd e) as (d & Hobs & Hlen & Hgoal).
  destruct (Grasp_report_run _ Hobs Hlen Hgoal) as (r & e' & Hr & _).
  now exists r, e'.
Qed.

(** A returning [step] of variant 1 is a returning [real_step] on the
    command built from the action. *)
Lemma Grasp_step_inv (a : pyaction) (e e' : Grasp.env) (r : Grasp.step_result) :
  Grasp.step a e = (Ok r, e') ->
  exists cmd, Grasp.real_action a e = (Ok cmd, e)
              /\ Grasp.report (after_trigger cmd e) = (Ok r, e').
Proof.
  unfold Grasp.step. intros H.
  destruct (bind_inv_ok _ _ _ H) as (cmd & e0 & Hcmd & Hreal).
  pose proof (Grasp_real_action_state a e) as Hst.
  rewrite Hcmd in Hst. cbn in Hst. subst e0.
  exists cmd. split; [exact Hcmd|]. now rewrite <- Grasp_real_step_unfold.
Qed.

End GraspFacts.

(** ** The HER variant *)

Section HERFacts.
Context {B : Backend}.

(** The loop of [real_step] leaves the grasp flags and counts alone and
    never moves the step counter past [max_step_count]. *)
Lemma HER_repeat_action_frame (n : nat) (cmd : list float) :
  forall e : GraspHER.env,
    let e' := GraspHER.repeat_action n cmd e in
    GraspHER.cfg e' = GraspHER.cfg e
    /\ GraspHER._attempted_grasp e' = GraspHER._attempted_grasp e
    /\ GraspHER.grasp_attempts_count e' = GraspHER.grasp_attempts_count e
    /\ GraspHER.successful_grasp e' = GraspHER.successful_grasp e
    /\ GraspHER.episode_number e' = GraspHER.episode_number e
    /\ (GraspHER._env_step_counter e <= GraspHER._env_step_counter e')%Z
    /\ ((GraspHER._env_step_counter e <= GraspHER.max_step_count (GraspHER.cfg e))%Z ->
        (GraspHER._env_step_counter e' <= GraspHER.max_step_count (GraspHER.cfg e))%Z).
Proof.
  induction n as [|n IH]; intros e; cbn zeta.
  - cbn. repeat split; lia.
  - cbn [GraspHER.repeat_action].
    set (e1 := GraspHER.set_sim _ (GraspHER.set_sim _ e)).
    destruct (GraspHER._termination e1) eqn:Hterm.
    + subst e1. cbn. repeat split; lia.
    + specialize (IH (GraspHER.set_env_step_counter (GraspHER._env_step_counter e1 + 1)%Z e1)).
      cbn zeta in IH. destruct IH as (Hc & Ha & Hg & Hs & Hn & Hle & Hmax).
      unfold GraspHER._termination in Hterm.
      apply orb_false_iff in Hterm as [_ Hlt]. apply Z.leb_gt in Hlt.
      subst e1. cbn in *. repeat split; try assumption; lia.
Qed.

(** Once the command is built, [real_step] raises [TypeError] at the
    distance check, in the state the physics tick left. *)
Lemma HER_real_step_raises (cmd : list float) (e : GraspHER.env) :
  GraspHER.real_step cmd e = (Raise TypeError, snd (GraspHER.physics_tick cmd e)).
Proof. reflexivity. Qed.

Lemma HER_real_action_state (a : pyaction) (e : GraspHER.env) :
  snd (GraspHER.real_action a e) = e.
Proof.
  unfold GraspHER.real_action. rewrite bind_gets.
  destruct (GraspHER.is_discrete (GraspHER.cfg e)), a as [i|v];
    try reflexivity; cbv zeta; run_command.
Qed.

Lemma HER_step_cases (a : pyaction) (e : GraspHER.env) :
  (exists cmd, GraspHER.real_action a e = (Ok cmd, e)
               /\ GraspHER.step a e
                  = (Raise TypeError, snd (GraspHER.physics_tick cmd e)))
  \/ (exists err, GraspHER.real_action a e = (Raise err, e)
                  /\ GraspHER.step a e = (Raise err, e)).
Proof.
  pose proof (HER_real_action_state a e) as Hst.
  unfold GraspHER.step.
  destruct (GraspHER.real_action a e) as [[cmd|err] e0] eqn:Hact; cbn in Hst; subst e0.
  - left. exists cmd. split; [reflexivity|].
    erewrite bind_ok by exact Hact. apply HER_real_step_raises.
  - right. exists err. split; [reflexivity|].
    erewrite bind_raise by exact Hact. reflexivity.
Qed.

(** What a call of [step] leaves behind. *)
Lemma HER_step_frame (a : pyaction) (e : GraspHER.env) :
  let e' := snd (GraspHER.step a e) in
  GraspHER.cfg e' = GraspHER.cfg e
  /\ GraspHER._attempted_grasp e' = GraspHER._attempted_grasp e
  /\ GraspHER.grasp_attempts_count e' = GraspHER.grasp_attempts_count e
  /\ GraspHER.successful_grasp e' = GraspHER.successful_grasp e
  /\ GraspHER.episode_number e' = GraspHER.episode_number e
  /\ ((GraspHER._env_step_counter e <= GraspHER.max_step_count (GraspHER.cfg e))%Z ->
      (GraspHER._env_step_counter e' <= GraspHER.max_step_count (GraspHER.cfg e))%Z).
Proof.
  destruct (HER_step_cases a e) as [(cmd & _ & ->)|(err & _ & ->)]; cbn zeta.
  - cbn [snd]. unfold GraspHER.physics_tick. cbn.
    destruct (HER_repeat_action_frame
                (Z.to_nat (GraspHER.action_repeat_amount (GraspHER.cfg e))) cmd e)
      as (Hc & Ha & Hg & Hs & Hn & _ & Hmax).
    repeat split; assumption.
  - cbn. repeat split. tauto.
Qed.

(** The body of [_compute_reward] past its first slice, which would run
    on a flat observation vector of at least ten entries; no state of an
    HER object holds one (see [her_state_inv]). *)
Lemma HER_compute_reward_run (e : GraspHER.env) (l : list float) :
  GraspHER._observation e = GraspHER.ObsList l ->
  (10 <= List.length l)%nat ->
  GraspHER._compute_reward e
  = if GraspHER.target_object_height <? her_target_height l
    then (Ok 1000000,
          GraspHER.set_successful_grasp_count
            (GraspHER.successful_grasp_count e + 1)%Z
            (GraspHER.set_successful_grasp true e))
    else (Ok (let horizontal :=
                distance_between [1; 1; 0] (her_gripper_pos l) (her_target_pos l) in
              if horizontal <=? 0.03
              then - distance_between [1; 1; 1] (her_gripper_pos l) (her_target_pos l) * 100
              else - horizontal * 100 - 500), e).
Proof.
  intros Hobs Hlen.
  assert (Hg : List.length (her_gripper_pos l) = 3%nat).
  { unfold her_gripper_pos. rewrite (py_slice_front3 _ 0); [reflexivity|lia]. }
  assert (Ht : her_target_pos l = [nth 7 l 0; nth 8 l 0; nth 9 l 0]).
  { unfold her_target_pos, py_slice.
    do 10 (destruct l as [|? l]; [cbn in Hlen; lia|]). reflexivity. }
  assert (Hpos : forall s : GraspHER.env,
             GraspHER._observation s = GraspHER.ObsList l ->
             GraspHER.get_target_pos s = (Ok (her_target_pos l), s)
             /\ GraspHER.get_gripper_pos s = (Ok (her_gripper_pos l), s)).
  { intros s Hs. unfold GraspHER.get_target_pos, GraspHER.get_gripper_pos.
    rewrite !bind_gets, Hs. split; reflexivity. }
  destruct (Hpos e Hobs) as (Htp & Hgp).
  unfold GraspHER._compute_reward.
  erewrite bind_ok by exact Htp. erewrite bind_ok by exact Hgp.
  rewrite Ht at 1. rewrite bind_lift. cbn [py_getitem]. cbv beta iota.
  change (py_getitem [nth 7 l 0; nth 8 l 0; nth 9 l 0] 2) with (Ok (nth 9 l 0)).
  cbv beta iota. fold (her_target_height l).
  destruct (GraspHER.target_object_height <? her_target_height l); [reflexivity|].
  erewrite bind_ok by (apply get_distance_run; [reflexivity|exact Hg|now rewrite Ht]).
  destruct (distance_between [1; 1; 0] (her_gripper_pos l) (her_target_pos l) <=? 0.03);
    [|reflexivity].
  unfold GraspHER.get_distance_to_target.
  erewrite bind_ok
    by (erewrite bind_ok by exact Htp; erewrite bind_ok by exact Hgp;
        apply get_distance_run; [reflexivity|exact Hg|now rewrite Ht]).
  reflexivity.
Qed.

(** On the dictionary the class stores, every helper that reads a
    position raises [TypeError] at its first slice and leaves the state
    untouched; so do the two blocks of [real_step] that call them. *)
Lemma HER_helpers_raise (e : GraspHER.env) (d : GraspHER.obs_dict) :
  GraspHER._observation e = GraspHER.ObsDict d ->
  GraspHER.get_gripper_pos e = (Raise TypeError, e)
  /\ GraspHER.get_target_pos e = (Raise TypeError, e)
  /\ GraspHER.get_distance_to_target e = (Raise TypeError, e)
  /\ GraspHER._compute_reward e = (Raise TypeError, e)
  /\ GraspHER.grasp_trigger e = (Raise TypeError, e)
  /\ GraspHER.report e = (Raise TypeError, e).
Proof.
  intros Hobs.
  assert (Hg : GraspHER.get_gripper_pos e = (Raise TypeError, e))
    by (unfold GraspHER.get_gripper_pos; rewrite bind_gets, Hobs; reflexivity).
  assert (Ht : GraspHER.get_target_pos e = (Raise TypeError, e))
    by (unfold GraspHER.get_target_pos; rewrite bind_gets, Hobs; reflexivity).
  assert (Hd : GraspHER.get_distance_to_target e = (Raise TypeError, e))
    by (unfold GraspHER.get_distance_to_target; erewrite bind_raise by exact Ht;
        reflexivity).
  assert (Hr : GraspHER._compute_reward e = (Raise TypeError, e))
    by (unfold GraspHER._compute_reward; erewrite bind_raise by exact Ht;
        reflexivity).
  repeat split; try assumption.
  - unfold GraspHER.grasp_trigger. erewrite bind_raise by exact Hd. reflexivity.
  - unfold GraspHER.report. erewrite bind_raise by exact Hr. reflexivity.
Qed.

(** [reset] with a fixed target position returns the dictionary it
    stores. *)
Lemma HER_reset_fixed (e : GraspHER.env) :
  GraspHER.is_target_position_fixed (GraspHER.cfg e) = true ->
  exists d : GraspHER.obs_dict,
    GraspHER.reset e = (Ok (GraspHER.ObsDict d), snd (GraspHER.reset e))
    /\ GraspHER._observation (snd (GraspHER.reset e)) = GraspHER.ObsDict d.
Proof.
  intros Hfixed. unfold GraspHER.reset. rewrite Hfixed.
  cbn [GraspHER.p_loadURDF_cube fst snd]. eexists. split; reflexivity.
Qed.

(** [reset] with a sampled target position raises where the cube is
    loaded; the observation and the target handle are not assigned. *)
Lemma HER_reset_sampled (e : GraspHER.env) :
  GraspHER.is_target_position_fixed (GraspHER.cfg e) = false ->
  fst (GraspHER.reset e) = Raise PybulletError
  /\ GraspHER._observation (snd (GraspHER.reset e)) = GraspHER._observation e
  /\ GraspHER.target_object_id (snd (GraspHER.reset e)) = GraspHER.target_object_id e.
Proof.
  intros Hfixed. unfold GraspHER.reset. rewrite Hfixed.
  cbn [GraspHER.p_loadURDF_cube fst snd]. repeat split.
Qed.

(** What [reset] does to the flags and the counters, returning or
    raising. *)
Lemma HER_reset_frame (e : GraspHER.env) :
  let e' := snd (GraspHER.reset e) in
  GraspHER.cfg e' = GraspHER.cfg e
  /\ GraspHER._attempted_grasp e' = false
  /\ GraspHER._env_step_counter e' = 0%Z
  /\ GraspHER.successful_grasp e' = false
  /\ GraspHER.episode_number e' = GraspHER.episode_number e
  /\ GraspHER.grasp_attempts_count e' = GraspHER.grasp_attempts_count e
  /\ GraspHER.successful_grasp_count e' = GraspHER.successful_grasp_count e.
Proof.
  cbv zeta. unfold GraspHER.reset.
  destruct (GraspHER.is_target_position_fixed (GraspHER.cfg e));
    cbn [GraspHER.p_loadURDF_cube fst snd]; repeat split.
Qed.





End HERFacts.

(** ** The claims *)

Section Claims.
Context {B : Backend}.

(** What a returning [step] of variant 1 reports, in terms of the state
    [e2] in which its results are built and the state [e'] it leaves. *)
Lemma Grasp_step_facts (a : pyaction) (e e' : Grasp.env) (r : Grasp.step_result) :
  Grasp.step a e = (Ok r, e') ->
  exists (cmd : list float) (d : Grasp.obs_dict),
    Grasp.real_action a e = (Ok cmd, e)
    /\ observed (after_trigger cmd e) d
    /\ Grasp.res_observation r = Grasp.ObsDict d
    /\ Grasp.res_is_success r = Grasp._attempted_grasp e' && height_reached d
    /\ Grasp.res_done r = Grasp._termination e'
    /\ Grasp.res_reward r
       = (if String.eqb (Grasp.reward_type (Grasp.cfg e)) "sparse"
          then Grasp.float32_of_bool (Grasp.res_is_success r)
          else dense_reward 10 0.025 10 10000
                 (horizontal_distance d) (full_distance d) (Grasp.res_is_success r))
    /\ Grasp.cfg e' = Grasp.cfg e
    /\ Grasp._attempted_grasp e' = Grasp._attempted_grasp (after_trigger cmd e)
    /\ Grasp._env_step_counter e' = (Grasp._env_step_counter e + 1)%Z
    /\ Grasp._grasp_attempts_count e' = Grasp._grasp_attempts_count (after_trigger cmd e)
    /\ Grasp.sim e' = Grasp.sim (after_trigger cmd e).
Proof.
  intros H. destruct (Grasp_step_inv _ _ H) as (cmd & Hcmd & Hrep).
  destruct (after_trigger_observed cmd e) as (d & Hd).
  pose proof Hd as (Hobs & Hlen & Hgoal).
  destruct (Grasp_report_run _ Hobs Hlen Hgoal)
    as (r0 & e0 & Hr & Ho & Hs & Hdn & Hrw & _ & Hc & Ha & Hn & Hg & _ & Hw).
  rewrite Hrep in Hr. injection Hr as <- <-.
  assert (Hframe : Grasp.cfg (after_trigger cmd e) = Grasp.cfg e
                   /\ Grasp._env_step_counter (after_trigger cmd e)
                      = (Grasp._env_step_counter e + 1)%Z).
  { destruct (after_tick_observed cmd e) as (d1 & H1).
    destruct (after_trigger_cases H1) as (_ & ->).
    destruct (vertical_distance d1 <=? Grasp._distance_to_grasp); split; reflexivity. }
  destruct Hframe as (Hc2 & Hn2).
  exists cmd, d. rewrite Ha, Hc, Hn, Hg, Hw, Hn2.
  rewrite Hc2 in Hrw. repeat split; assumption.
Qed.



(** C8.  With reward type 'sparse', the reward a step of variant 1
    returns is exactly 1.0 when the step is reported successful and
    exactly 0.0 when it is not. *)
Theorem sparse_reward_is_zero_or_one
    (a : pyaction) (e e' : Grasp.env) (r : Grasp.step_result) :
  Grasp.reward_type (Grasp.cfg e) = "sparse"%string ->
  Grasp.step a e = (Ok r, e') ->
  Grasp.res_reward r = (if Grasp.res_is_success r then 1 else 0).
Proof.
  intros Hrt H.
  destruct (Grasp_step_facts _ _ H) as (cmd & d & _ & _ & _ & _ & _ & Hrw & _).
  rewrite Hrt in Hrw. exact Hrw.
Qed.


(** Variant 1 does what C2 says: after the physics tick, a vertical
    distance of at most 0.11 counts one more grasp attempt and runs the
    whole animation within the step; a larger one does neither. *)
Lemma Grasp_trigger_counts_and_grasps
    (a : pyaction) (e e' : Grasp.env) (r : Grasp.step_result) :
  Grasp.step a e = (Ok r, e') ->
  exists (cmd : list float) (d1 : Grasp.obs_dict),
    Grasp.real_action a e = (Ok cmd, e)
    /\ observed (after_tick cmd e) d1
    /\ Grasp.sim (after_tick cmd e) = tick cmd (Grasp.sim e)
    /\ ((vertical_distance d1 <=? 0.11) = true ->
        Grasp._grasp_attempts_count e' = (Grasp._grasp_attempts_count e + 1)%Z
        /\ Grasp.sim e' = grasped_world (after_tick cmd e))
    /\ ((0.11 <? vertical_distance d1) = true ->
        Grasp._grasp_attempts_count e' = Grasp._grasp_attempts_count e
        /\ Grasp.sim e' = Grasp.sim (after_tick cmd e)).
Proof.
  intros H.
  destruct (Grasp_step_facts _ _ H)
    as (cmd & d & Hcmd & _ & _ & _ & _ & _ & _ & _ & _ & Hg & Hw).
  destruct (after_tick_observed cmd e) as (d1 & H1).
  destruct (after_trigger_cases H1) as (_ & Hcases).
  exists cmd, d1. split; [exact Hcmd|]. split; [exact H1|]. split; [reflexivity|].
  rewrite Hg, Hw, Hcases. unfold Grasp._distance_to_grasp.
  split; intros Hd.
  - rewrite Hd. split; reflexivity.
  - apply ltb_not_leb in Hd. rewrite Hd. split; reflexivity.
Qed.

Lemma Grasp_step_keeps_attempt (a : pyaction) (e : Grasp.env) :
  Grasp._attempted_grasp e = true ->
  Grasp._attempted_grasp (snd (Grasp.step a e)) = true.
Proof.
  intros Ha.
  pose proof (Grasp_real_action_state a e) as Hst.
  unfold Grasp.step.
  destruct (Grasp.real_action a e) as [[cmd|err] e0] eqn:Hact; cbn in Hst; subst e0.
  - erewrite bind_ok by exact Hact.
    destruct (Grasp_real_step_returns cmd e) as (r & e' & Hr).
    assert (Hstep : Grasp.step a e = (Ok r, e')).
    { unfold Grasp.step. erewrite bind_ok by exact Hact. exact Hr. }
    destruct (Grasp_step_facts _ _ Hstep)
      as (cmd' & d & Hcmd & _ & _ & _ & _ & _ & _ & Hatt & _).
    rewrite Hact in Hcmd. injection Hcmd as <-.
    rewrite Hr. cbn [snd]. rewrite Hatt.
    destruct (after_tick_observed cmd e) as (d1 & H1).
    destruct (after_trigger_cases H1) as (_ & ->).
    destruct (vertical_distance d1 <=? Grasp._distance_to_grasp); [reflexivity|exact Ha].
  - erewrite bind_raise by exact Hact. exact Ha.
Qed.

(** C5.  Once [_attempted_grasp] is true it is true after every later
    call of [step], in both variants, whatever the calls return or raise;
    [reset] is what sets it back to false, also when it raises. *)
Theorem attempted_grasp_is_monotonic :
  (forall (actions : list pyaction) (e : Grasp.env),
      Grasp._attempted_grasp e = true ->
      Grasp._attempted_grasp (Grasp_steps actions e) = true)
  /\ (forall (actions : list pyaction) (e : GraspHER.env),
         GraspHER._attempted_grasp e = true ->
         GraspHER._attempted_grasp (HER_steps actions e) = true)
  /\ (forall e : Grasp.env, Grasp._attempted_grasp (Grasp.reset e) = false)
  /\ (forall e : GraspHER.env,
         GraspHER._attempted_grasp (snd (GraspHER.reset e)) = false).
Proof.
  split; [|split; [|split]]; [| |reflexivity|].
  - intros actions. induction actions as [|a rest IH]; intros e Ha; [exact Ha|].
    cbn [Grasp_steps]. apply IH. now apply Grasp_step_keeps_attempt.
  - intros actions. induction actions as [|a rest IH]; intros e Ha; [exact Ha|].
    cbn [HER_steps]. apply IH.
    destruct (HER_step_frame a e) as (_ & Hatt & _). now rewrite Hatt.
  - intros e. now destruct (HER_reset_frame e) as (_ & Ha & _).
Qed.

Lemma running_counter (e : Grasp.env) :
  running e ->
  Grasp._env_step_counter e = 0%Z
  \/ (Grasp._env_step_counter e < Grasp.max_step_count (Grasp.cfg e))%Z.
Proof.
  intros Hrun. induction Hrun as [e|e e' a r _ _ Hstep Hdone].
  - left. reflexivity.
  - right.
    destruct (Grasp_step_facts _ _ Hstep) as (cmd & d & _ & _ & _ & _ & Hd & _).
    rewrite Hd in Hdone. unfold Grasp._termination in Hdone.
    apply orb_false_iff in Hdone as [Hdone _].
    apply orb_false_iff in Hdone as [_ Hlt]. now apply Z.leb_gt in Hlt.
Qed.

Lemma HER_steps_counter (actions : list pyaction) :
  forall e : GraspHER.env,
    (GraspHER._env_step_counter e <= GraspHER.max_step_count (GraspHER.cfg e))%Z ->
    GraspHER.cfg (HER_steps actions e) = GraspHER.cfg e
    /\ (GraspHER._env_step_counter (HER_steps actions e)
        <= GraspHER.max_step_count (GraspHER.cfg e))%Z.
Proof.
  induction actions as [|a rest IH]; intros e Hle; [split; [reflexivity|exact Hle]|].
  cbn [HER_steps].
  destruct (HER_step_frame a e) as (Hc & _ & _ & _ & _ & Hmax).
  destruct (IH (snd (GraspHER.step a e))) as (Hc' & Hle').
  - rewrite Hc. now apply Hmax.
  - rewrite Hc', Hc in *. split; [reflexivity|exact Hle'].
Qed.

(** C6 (as amended).  In variant 1 a step that returns [done = False]
    leaves the step counter strictly below [max_step_count]; and when
    [max_step_count >= 1], the first step of an episode that returns
    [done = True] leaves it at most [max_step_count].  In the HER variant
    with [max_step_count >= 0] the counter is at most [max_step_count]
    after [reset] and any calls of [step]. *)
Theorem step_counter_bounded :
  (forall (a : pyaction) (e e' : Grasp.env) (r : Grasp.step_result),
      Grasp.step a e = (Ok r, e') ->
      Grasp.res_done r = false ->
      (Grasp._env_step_counter e' < Grasp.max_step_count (Grasp.cfg e))%Z)
  /\ (forall (a : pyaction) (e e' : Grasp.env) (r : Grasp.step_result),
         (1 <= Grasp.max_step_count (Grasp.cfg e))%Z ->
         running e ->
         Grasp.step a e = (Ok r, e') ->
         Grasp.res_done r = true ->
         (Grasp._env_step_counter e' <= Grasp.max_step_count (Grasp.cfg e))%Z)
  /\ (forall (actions : list pyaction) (e : GraspHER.env),
         (0 <= GraspHER.max_step_count (GraspHER.cfg e))%Z ->
         (GraspHER._env_step_counter (HER_steps actions (snd (GraspHER.reset e)))
          <= GraspHER.max_step_count (GraspHER.cfg e))%Z).
Proof.
  split; [|split].
  - intros a e e' r Hstep Hdone.
    destruct (Grasp_step_facts _ _ Hstep)
      as (cmd & d & _ & _ & _ & _ & Hd & _ & Hc & _).
    rewrite Hd in Hdone. unfold Grasp._termination in Hdone.
    apply orb_false_iff in Hdone as [Hdone _].
    apply orb_false_iff in Hdone as [_ Hlt]. apply Z.leb_gt in Hlt.
    now rewrite Hc in Hlt.
  - intros a e e' r Hmax Hrun Hstep _.
    destruct (Grasp_step_facts _ _ Hstep)
      as (cmd & d & _ & _ & _ & _ & _ & _ & _ & _ & Hn & _).
    rewrite Hn. destruct (running_counter Hrun) as [H0|Hlt]; lia.
  - intros actions e Hmax.
    destruct (HER_reset_frame e) as (Hc & _ & Hn & _).
    destruct (HER_steps_counter actions (snd (GraspHER.reset e))) as (_ & Hle).
    + rewrite Hn, Hc. exact Hmax.
    + now rewrite Hc in Hle.
Qed.

(** The closing ramp: one hundred finger commands, the first exactly 1,
    the [i]-th within 1e-15 of [1 - i/100], and the finger parameter is
    exactly 0 when the loop ends. *)
Lemma closing_ramp :
  List.length (finger_angles 100 100 1) = 100%nat
  /\ nth 0 (finger_angles 100 100 1) 0 = 1
  /\ linear_from 0 (finger_angles 100 100 1) = true
  /\ Nat.iter 100 (next_finger_angle 100) 1 = 0.
Proof. repeat split; vm_compute; reflexivity. Qed.

(** The animation on a world: the closing commands, then [k] lift ticks,
    where [k] is the first tick after which a cutoff is exceeded, or 100. *)
Lemma animation_run (id : Z) (cutoff : float) (w : world) :
  let w1 := fingers_closed (finger_angles 100 100 1) w in
  exists k : nat,
    (0 < k <= 100)%nat
    /\ lift_gripper_world 100 id cutoff (close_fingers_world 100 w) = raised k w1
    /\ (forall j, (0 < j < k)%nat -> lift_cutoff id cutoff (raised j w1) = false)
    /\ ((k < 100)%nat -> lift_cutoff id cutoff (raised k w1) = true).
Proof.
  cbv zeta. unfold close_fingers_world, lift_gripper_world.
  change (Z.to_nat 100) with 100%nat.
  rewrite close_fingers_loop_spec. cbn [snd].
  rewrite fingers_closed_run.
  destruct (lift_gripper_loop_spec 100 id cutoff
              (fingers_closed (finger_angles 100 100 1) w))
    as (k & Hk & Hpos & Heq & Hrun & Hstop).
  exists k. repeat split; try assumption; lia.
Qed.

(** C7.  [perform_grasp] always returns, in both variants, and what it
    does to the simulator is this.  First [update_gripper_pos]; then 100
    physics steps, each after a command whose six motion entries are zero
    and whose finger entry starts at 1 and decreases linearly by 1/100 per
    tick, the parameter ending at 0; then [k] physics steps, each after
    the command that moves the end-effector up by 0.005 and nothing else,
    where [k] is at most 100 and is the first tick after which the object
    is above 0.8 or the end-effector above its cutoff (2.5 in variant 1, 2
    in the HER variant).  It leaves [_attempted_grasp] true and changes
    nothing else. *)
Theorem grasp_animation_runs_to_completion :
  (List.length (finger_angles 100 100 1) = 100%nat
   /\ nth 0 (finger_angles 100 100 1) 0 = 1
   /\ linear_from 0 (finger_angles 100 100 1) = true
   /\ Nat.iter 100 (next_finger_angle 100) 1 = 0)
  /\ (forall e : Grasp.env,
         let w1 := fingers_closed (finger_angles 100 100 1)
                     (update_gripper_pos (Grasp.sim e)) in
         exists k : nat,
           (0 < k <= 100)%nat
           /\ Grasp.perform_grasp e
              = (Ok tt, Grasp.set_attempted_grasp true (Grasp.set_sim (raised k w1) e))
           /\ Grasp._attempted_grasp (snd (Grasp.perform_grasp e)) = true
           /\ (forall j, (0 < j < k)%nat ->
                         lift_cutoff (Grasp._target_object_id e) 2.5 (raised j w1) = false)
           /\ ((k < 100)%nat ->
               lift_cutoff (Grasp._target_object_id e) 2.5 (raised k w1) = true))
  /\ (forall e : GraspHER.env,
         let w1 := fingers_closed (finger_angles 100 100 1)
                     (update_gripper_pos (GraspHER.sim e)) in
         exists k : nat,
           (0 < k <= 100)%nat
           /\ GraspHER.perform_grasp e
              = (Ok tt, GraspHER.set_attempted_grasp true (GraspHER.set_sim (raised k w1) e))
           /\ GraspHER._attempted_grasp (snd (GraspHER.perform_grasp e)) = true
           /\ (forall j, (0 < j < k)%nat ->
                         lift_cutoff (GraspHER.target_object_id e) 2 (raised j w1) = false)
           /\ ((k < 100)%nat ->
               lift_cutoff (GraspHER.target_object_id e) 2 (raised k w1) = true)).
Proof.
  split; [exact closing_ramp|]. split.
  - intros e. cbv zeta.
    destruct (animation_run (Grasp._target_object_id e) 2.5
                (update_gripper_pos (Grasp.sim e))) as (k & Hk & Heq & Hrun & Hstop).
    exists k. split; [exact Hk|]. split.
    + rewrite Grasp_perform_grasp_run. unfold grasped_world. now rewrite Heq.
    + split; [reflexivity|]. split; assumption.
  - intros e. cbv zeta.
    destruct (animation_run (GraspHER.target_object_id e) 2
                (update_gripper_pos (GraspHER.sim e))) as (k & Hk & Heq & Hrun & Hstop).
    exists k. split; [exact Hk|]. split.
    + change (GraspHER.perform_grasp e)
        with (Ok tt, GraspHER.set_attempted_grasp true
                       (GraspHER.set_sim (her_grasped_world e) e)).
      unfold her_grasped_world. now rewrite Heq.
    + split; [reflexivity|]. split; assumption.
Qed.

(** C9 (as amended).  With discrete actions, an index at or above the
    length of the lookup tables, or below minus that length, makes [step]
    raise [IndexError] at once, with the state untouched: the length is 7
    in variant 1 and 8 in the HER variant.  In variant 1 the indices -7 to
    -1 are accepted and count from the end of the tables: index [i] gives
    the command of index [i + 7]. *)
Theorem out_of_range_index_raises :
  (forall (e : Grasp.env) (i : Z),
      Grasp.is_discrete (Grasp.cfg e) = true ->
      (i < -7 \/ 7 <= i)%Z ->
      Grasp.step (ActIndex i) e = (Raise IndexError, e))
  /\ (forall (e : GraspHER.env) (i : Z),
         GraspHER.is_discrete (GraspHER.cfg e) = true ->
         (i < -8 \/ 8 <= i)%Z ->
         GraspHER.step (ActIndex i) e = (Raise IndexError, e))
  /\ (forall (e : Grasp.env) (i : Z),
         (-7 <= i < 0)%Z ->
         Grasp.step (ActIndex i) e = Grasp.step (ActIndex (i + 7)) e).
Proof.
  split; [|split].
  - intros e i Hd Hi.
    unfold Grasp.step. erewrite bind_raise; [reflexivity|].
    unfold Grasp.real_action. rewrite bind_gets, Hd. cbv zeta.
    rewrite py_getitem_out_of_range by (cbn; lia). reflexivity.
  - intros e i Hd Hi.
    unfold GraspHER.step. erewrite bind_raise; [reflexivity|].
    unfold GraspHER.real_action. rewrite bind_gets, Hd. cbv zeta.
    rewrite py_getitem_out_of_range by (cbn; lia). reflexivity.
  - intros e i Hi.
    assert (Hcases : i = (-7)%Z \/ i = (-6)%Z \/ i = (-5)%Z \/ i = (-4)%Z
                     \/ i = (-3)%Z \/ i = (-2)%Z \/ i = (-1)%Z) by lia.
    unfold Grasp.step, Grasp.real_action.
    destruct Hcases as [->|[->|[->|[->|[->|[->| ->]]]]]]; reflexivity.
Qed.

(** C10 (as amended).  In the HER variant [real_step] raises [TypeError]
    for every command and every state, so every call of [step] raises:
    [TypeError] whenever the action was turned into a command, and
    otherwise the exception of the lookup that failed.  No reward and no
    [done] flag is produced, and the call leaves the grasp-attempt count,
    [_attempted_grasp] and the success flag as they were. *)
Theorem her_step_always_raises :
  (forall (cmd : list float) (e : GraspHER.env),
      fst (GraspHER.real_step cmd e) = Raise TypeError)
  /\ (forall (a : pyaction) (e : GraspHER.env),
         fst (GraspHER.step a e)
         = match fst (GraspHER.real_action a e) with
           | Ok _ => Raise TypeError
           | Raise err => Raise err
           end)
  /\ (forall (a : pyaction) (e : GraspHER.env),
         GraspHER.grasp_attempts_count (snd (GraspHER.step a e))
         = GraspHER.grasp_attempts_count e
         /\ GraspHER._attempted_grasp (snd (GraspHER.step a e))
            = GraspHER._attempted_grasp e
         /\ GraspHER.successful_grasp (snd (GraspHER.step a e))
            = GraspHER.successful_grasp e).
Proof.
  split; [|split].
  - intros cmd e. now rewrite HER_real_step_raises.
  - intros a e.
    destruct (HER_step_cases a e) as [(cmd & -> & ->)|(err & -> & ->)]; reflexivity.
  - intros a e.
    destruct (HER_step_frame a e) as (_ & Ha & Hg & Hs & _).
    repeat split; assumption.
Qed.

End Claims.

(** ** Concrete runs *)

Import Toy.

(** Far above the block nothing is triggered: the reward is the negative
    full distance times 10. *)
Example grasp_far_step :
  summary (fst (Grasp.step (B := toy) (ActIndex 0) (grasp_env far 5 "dense")))
  = Some (-3.7000000000000002, false, false).
Proof. vm_compute. reflexivity. Qed.

(** To the side of the block the flat penalty applies. *)
Example grasp_aside_step :
  summary (fst (Grasp.step (B := toy) (ActIndex 0) (grasp_env aside 5 "dense")))
  = Some (-11, false, false).
Proof. vm_compute. reflexivity. Qed.

(** Just above the block the grasp runs within the step and succeeds. *)
Example grasp_near_step :
  summary (fst (Grasp.step (B := toy) (ActIndex 0) (grasp_env near 5 "dense")))
  = Some (10000, true, true)
  /\ summary (fst (Grasp.step (B := toy) (ActIndex 0) (grasp_env near 5 "sparse")))
     = Some (1, true, true).
Proof. vm_compute. split; reflexivity. Qed.

(** Five steps with [max_step_count = 5] that never reach the trigger
    radius: the fifth returns [done = True], no success, a negative
    reward. *)
Example grasp_timeout :
  let e := Grasp_steps (B := toy)
             [ActIndex 0; ActIndex 0; ActIndex 0; ActIndex 0] (grasp_env aside 5 "dense") in
  summary (fst (Grasp.step (B := toy) (ActIndex 0) e)) = Some (-11, true, false)
  /\ Grasp._env_step_counter (snd (Grasp.step (B := toy) (ActIndex 0) e)) = 5%Z.
Proof. vm_compute. split; reflexivity. Qed.

(** C2 (the code departs from the claim).  An HER object whose
    end-effector is 0.07 above the target is stepped once: after the
    physics tick the two are within 0.11 of each other, yet the call
    raises [TypeError], no grasp attempt is counted, no animation runs (the
    world is the one the single tick left) and [_attempted_grasp] stays
    false. *)
Theorem her_step_skips_grasp_trigger :
  let e := her_env near 5 in
  let out := GraspHER.step (B := toy) (ActIndex 4) e in
  fst out = Raise TypeError
  /\ (world_distance (B := toy) [1; 1; 1] (GraspHER.target_object_id (snd out))
        (GraspHER.sim (snd out)) <=? GraspHER.distance_to_grasp) = true
  /\ GraspHER.grasp_attempts_count (snd out) = GraspHER.grasp_attempts_count e
  /\ GraspHER.sim (snd out)
     = tick (B := toy) [0; 0; -0.01; 0; 0; 0; 1] (GraspHER.sim e)
  /\ GraspHER._attempted_grasp (snd out) = false.
Proof. vm_compute. repeat split; reflexivity. Qed.




(** C5 on concrete runs: after a grasp in variant 1, and after
    [perform_grasp] in the HER variant, further calls of [step] keep the
    flag. *)
Lemma attempted_grasp_witness :
  Grasp._attempted_grasp
    (Grasp_steps (B := toy) [ActIndex 2; ActIndex 9]
       (snd (Grasp.step (B := toy) (ActIndex 0) (grasp_env near 5 "dense")))) = true
  /\ GraspHER._attempted_grasp
       (HER_steps (B := toy) [ActIndex 2; ActIndex 9]
          (snd (GraspHER.perform_grasp (B := toy) (her_env near 5)))) = true.
Proof.
  split.
  - apply (proj1 (@attempted_grasp_is_monotonic toy)). vm_compute; reflexivity.
  - apply (proj1 (proj2 (@attempted_grasp_is_monotonic toy))). vm_compute; reflexivity.
Defined.

(** C6 on concrete runs: the first step of an episode of five steps, the
    first step of an episode of one step, and two calls in the HER
    variant. *)
Lemma step_counter_witness :
  (exists r e',
      Grasp.step (B := toy) (ActIndex 0) (grasp_env far 5 "dense") = (Ok r, e')
      /\ (Grasp._env_step_counter e' < 5)%Z)
  /\ (exists r e',
         Grasp.step (B := toy) (ActIndex 0) (grasp_env far 1 "dense") = (Ok r, e')
         /\ (Grasp._env_step_counter e' <= 1)%Z)
  /\ (GraspHER._env_step_counter
        (HER_steps (B := toy) [ActIndex 0; ActIndex 1] (her_env far 5)) <= 5)%Z.
Proof.
  split; [|split].
  - do 2 eexists. split; [vm_compute; reflexivity|].
    eapply (proj1 (@step_counter_bounded toy) (ActIndex 0) (grasp_env far 5 "dense")).
    + vm_compute; reflexivity.
    + reflexivity.
  - do 2 eexists. split; [vm_compute; reflexivity|].
    eapply (proj1 (proj2 (@step_counter_bounded toy))
              (ActIndex 0) (grasp_env far 1 "dense")).
    + vm_compute; discriminate.
    + apply running_reset.
    + vm_compute; reflexivity.
    + reflexivity.
  - apply (proj2 (proj2 (@step_counter_bounded toy)) [ActIndex 0; ActIndex 1]
             (GraspHER.attributes (B := toy) (her_config true 5) (connect far))).
    vm_compute; discriminate.
Defined.

(** C6 as stated fails in variant 1 when [max_step_count] is 0: the
    first step returns [done = True] with the counter at 1. *)
Lemma step_counter_counterexample :
  ~ (forall (a : pyaction) (e e' : Grasp.env (B := toy)) (r : Grasp.step_result),
        running e ->
        Grasp.step a e = (Ok r, e') ->
        Grasp.res_done r = true ->
        (Grasp._env_step_counter e' <= Grasp.max_step_count (Grasp.cfg e))%Z).
Proof.
  intros H.
  destruct (Grasp_real_step_returns (B := toy) [0; 0; 0; 0; 0; 0; 1]
              (grasp_env far 0 "dense")) as (r & e' & Hr).
  assert (Hstep : Grasp.step (B := toy) (ActIndex 0) (grasp_env far 0 "dense") = (Ok r, e'))
    by exact Hr.
  specialize (H (ActIndex 0) (grasp_env far 0 "dense") e' r (running_reset _) Hstep).
  vm_compute in Hstep. injection Hstep as <- <-.
  assert (Hle : (1 <= 0)%Z) by (apply H; reflexivity).
  lia.
Qed.

(** C8 on a concrete run: a successful grasp in sparse mode. *)
Lemma sparse_reward_witness :
  exists r e',
    Grasp.step (B := toy) (ActIndex 0) (grasp_env near 5 "sparse") = (Ok r, e')
    /\ Grasp.res_reward r = (if Grasp.res_is_success r then 1 else 0).
Proof.
  do 2 eexists. split; [vm_compute; reflexivity|].
  eapply (@sparse_reward_is_zero_or_one toy (ActIndex 0) (grasp_env near 5 "sparse")).
  - reflexivity.
  - vm_compute; reflexivity.
Defined.

(** C9 on concrete indices. *)
Lemma out_of_range_index_witness :
  Grasp.step (B := toy) (ActIndex 7) (grasp_env far 5 "dense")
  = (Raise IndexError, grasp_env far 5 "dense")
  /\ GraspHER.step (B := toy) (ActIndex 8) (her_env far 5)
     = (Raise IndexError, her_env far 5)
  /\ Grasp.step (B := toy) (ActIndex (-1)) (grasp_env far 5 "dense")
     = Grasp.step (B := toy) (ActIndex (-1 + 7)) (grasp_env far 5 "dense").
Proof.
  split; [|split].
  - apply (proj1 (@out_of_range_index_raises toy)); [reflexivity|lia].
  - apply (proj1 (proj2 (@out_of_range_index_raises toy))); [reflexivity|lia].
  - apply (proj2 (proj2 (@out_of_range_index_raises toy))). lia.
Defined.

(** C9 as stated fails: index -1 in variant 1 is mapped to the command
    of index 6 and the step returns; index 6 in the HER variant is turned
    into a command as well. *)
Lemma negative_index_counterexample :
  ~ (forall (e : Grasp.env (B := toy)) (i : Z),
        Grasp.is_discrete (Grasp.cfg e) = true ->
        ~ (0 <= i <= 6)%Z ->
        fst (Grasp.step (ActIndex i) e) = Raise IndexError)
  /\ fst (Grasp.real_action (B := toy) (ActIndex (-1)) (grasp_env far 5 "dense"))
     = Ok [0; 0; 0.01; 0; 0; 0; 1]
  /\ fst (GraspHER.real_action (B := toy) (ActIndex 6) (her_env far 5))
     = Ok [0; 0; 0; 0; 0; 0; 1].
Proof.
  split; [|split; vm_compute; reflexivity].
  intros H.
  specialize (H (grasp_env far 5 "dense") (-1)%Z eq_refl).
  assert (Hneg : ~ (0 <= -1 <= 6)%Z) by lia.
  specialize (H Hneg). vm_compute in H. discriminate.
Qed.

(** C10 as stated fails: with index 8 the call raises [IndexError], not
    [TypeError]. *)
Lemma her_index_error_counterexample :
  ~ (forall (a : pyaction) (e : GraspHER.env (B := toy)),
        fst (GraspHER.step a e) = Raise TypeError).
Proof.
  intros H. specialize (H (ActIndex 8) (her_env far 5)).
  vm_compute in H. discriminate.
Qed.

(** Proves membership in an explicit list of float tuples. *)
Ltac in_list := cbn [In]; solve [repeat (first [left; reflexivity | right])].

(** ** Episodes of variant 1 *)

Section Episodes.
Context {B : Backend}.

(** The state [report] leaves: the success latch and count, then the
    episode number. *)
Lemma Grasp_report_state (e : Grasp.env) (d : Grasp.obs_dict) :
  Grasp._observation e = Grasp.ObsDict d ->
  (3 <= List.length (Grasp.observation d))%nat ->
  snd (Grasp.report e)
  = (let ok := Grasp._attempted_grasp e && height_reached d in
     let e1 := if ok
               then Grasp.set_successful_grasp_count
                      (Grasp._successful_grasp_count e + 1)%Z
                      (Grasp.set_is_successful_grasp true e)
               else e in
     if Grasp._termination e1
     then Grasp.set_episode_number (Grasp._episode_number e1 + 1)%Z e1
     else e1).
Proof.
  intros Hobs Hlen. cbv zeta.
  unfold Grasp.report.
  rewrite bind_gets, Hobs. cbn [Grasp.obs_item]. rewrite !bind_lift_ok.
  erewrite bind_ok by apply Grasp_is_success_run.
  fold (height_reached d).
  set (ok := Grasp._attempted_grasp e && height_reached d).
  set (e1 := if ok
             then Grasp.set_successful_grasp_count
                    (Grasp._successful_grasp_count e + 1)%Z
                    (Grasp.set_is_successful_grasp true e)
             else e).
  assert (Hmark : (if ok
                   then (modify (Grasp.set_is_successful_grasp true) ;;;
                         modify (fun e => Grasp.set_successful_grasp_count
                                   (Grasp._successful_grasp_count e + 1)%Z e))%py
                   else ret tt) e = (Ok tt, e1))
    by (subst e1; destruct ok; reflexivity).
  erewrite bind_ok by exact Hmark.
  assert (Hobs1 : Grasp._observation e1 = Grasp.ObsDict d)
    by (subst e1; destruct ok; exact Hobs).
  rewrite bind_gets, Hobs1. cbn [Grasp.obs_item]. rewrite bind_lift_ok, bind_gets.
  erewrite bind_ok by (apply Grasp_compute_reward_run; [exact Hobs1 | exact Hlen]).
  rewrite bind_gets.
  destruct (Grasp._termination e1); reflexivity.
Qed.

(** The state a returning [step] leaves, field by field: the state after
    the distance check, then the success latch and count when the step is
    reported successful, then one more episode when it is reported done. *)
Lemma Grasp_step_state (a : pyaction) (e e' : Grasp.env) (r : Grasp.step_result) :
  Grasp.step a e = (Ok r, e') ->
  exists (cmd : list float) (d1 : Grasp.obs_dict),
    Grasp.real_action a e = (Ok cmd, e)
    /\ observed (after_tick cmd e) d1
    /\ let e2 := if vertical_distance d1 <=? Grasp._distance_to_grasp
                 then grasp_and_observe (after_tick cmd e) else after_tick cmd e in
       let e3 := if Grasp.res_is_success r
                 then Grasp.set_successful_grasp_count
                        (Grasp._successful_grasp_count e2 + 1)%Z
                        (Grasp.set_is_successful_grasp true e2)
                 else e2 in
       e' = if Grasp.res_done r
            then Grasp.set_episode_number (Grasp._episode_number e3 + 1)%Z e3
            else e3.
Proof.
  intros H.
  destruct (Grasp_step_inv _ _ H) as (cmd & Hcmd & Hrep).
  destruct (after_tick_observed cmd e) as (d1 & H1).
  destruct (after_trigger_cases H1) as (_ & Hcases).
  destruct (after_trigger_observed cmd e) as (d & Hobs & Hlen & Hgoal).
  destruct (Grasp_report_run _ Hobs Hlen Hgoal)
    as (r0 & e0 & Hr & _ & Hs & Hdn & _).
  pose proof (Grasp_report_state _ Hobs Hlen) as Hst.
  rewrite Hrep in Hr. injection Hr as <- <-.
  rewrite Hrep in Hst. cbn [snd] in Hst. cbv zeta in Hst.
  rewrite <- Hs in Hst.
  exists cmd, d1. split; [exact Hcmd|]. split; [exact H1|]. cbv zeta.
  rewrite <- Hcases.
  assert (Hterm : Grasp._termination
                    (if Grasp.res_is_success r
                     then Grasp.set_successful_grasp_count
                            (Grasp._successful_grasp_count (after_trigger cmd e) + 1)%Z
                            (Grasp.set_is_successful_grasp true (after_trigger cmd e))
                     else after_trigger cmd e)
                  = Grasp.res_done r).
  { rewrite Hdn, Hst.
    destruct (Grasp._termination
                (if Grasp.res_is_success r
                 then Grasp.set_successful_grasp_count
                        (Grasp._successful_grasp_count (after_trigger cmd e) + 1)%Z
                        (Grasp.set_is_successful_grasp true (after_trigger cmd e))
                 else after_trigger cmd e)) eqn:Ht; [|exact (eq_sym Ht)].
    symmetry. exact Ht. }
  rewrite Hterm in Hst. exact Hst.
Qed.

(** A call of [step] either returns, for an accepted action, or raises
    with the state untouched. *)
Lemma Grasp_step_cases (a : pyaction) (e : Grasp.env) :
  (exists r e', Grasp.step a e = (Ok r, e') /\ accepted e a = true)
  \/ (exists err, Grasp.step a e = (Raise err, e) /\ accepted e a = false).
Proof.
  pose proof (Grasp_real_action_state a e) as Hst.
  unfold accepted, Grasp.step.
  destruct (Grasp.real_action a e) as [[cmd|err] e0] eqn:Hact; cbn in Hst; subst e0.
  - left. destruct (Grasp_real_step_returns cmd e) as (r & e' & Hr).
    exists r, e'. split; [|reflexivity].
    erewrite bind_ok by exact Hact. exact Hr.
  - right. exists err. split; [|reflexivity].
    erewrite bind_raise by exact Hact. reflexivity.
Qed.

(** Splits a returning [step] into the cases of its final state. *)
Ltac step_fields H :=
  let cmd := fresh "cmd" in
  let d1 := fresh "d1" in
  let Hcmd := fresh "Hcmd" in
  let Hobs := fresh "Hobs" in
  let He := fresh "He" in
  destruct (Grasp_step_state _ _ H) as (cmd & d1 & Hcmd & Hobs & He);
  cbv zeta in He;
  destruct (Grasp.res_done _) eqn:?, (Grasp.res_is_success _) eqn:?,
    (vertical_distance d1 <=? Grasp._distance_to_grasp) eqn:?;
  subst; cbn.

(** X1.  The episode number grows by one exactly at the steps reported done,
    the count of successful grasps by one exactly at the steps reported
    successful, and the count of attempts by at most one per step. *)
Theorem counters_follow_reports
    (a : pyaction) (e e' : Grasp.env) (r : Grasp.step_result) :
  Grasp.step a e = (Ok r, e') ->
  Grasp._episode_number e'
  = (Grasp._episode_number e + (if Grasp.res_done r then 1 else 0))%Z
  /\ Grasp._successful_grasp_count e'
     = (Grasp._successful_grasp_count e + (if Grasp.res_is_success r then 1 else 0))%Z
  /\ (Grasp._grasp_attempts_count e' = Grasp._grasp_attempts_count e
      \/ Grasp._grasp_attempts_count e' = (Grasp._grasp_attempts_count e + 1)%Z).
Proof.
  intros H. step_fields H; repeat split; try lia; auto.
Qed.

Lemma Grasp_step_counters (a : pyaction) (e : Grasp.env) :
  (Grasp._episode_number e <= Grasp._episode_number (snd (Grasp.step a e)))%Z
  /\ (Grasp._grasp_attempts_count e
      <= Grasp._grasp_attempts_count (snd (Grasp.step a e)))%Z
  /\ (Grasp._successful_grasp_count e
      <= Grasp._successful_grasp_count (snd (Grasp.step a e)))%Z.
Proof.
  destruct (Grasp_step_cases a e) as [(r & e' & H & _)|(err & H & _)];
    rewrite H; cbn [snd]; [|lia].
  step_fields H; repeat split; lia.
Qed.

(** X2.  The three cumulative counters never decrease, whatever calls of
    [step] and [reset] are made: [reset] does not touch them. *)
Theorem cumulative_counters_never_decrease (calls : list call) :
  forall e : Grasp.env,
    (Grasp._episode_number e <= Grasp._episode_number (Grasp_calls calls e))%Z
    /\ (Grasp._grasp_attempts_count e
        <= Grasp._grasp_attempts_count (Grasp_calls calls e))%Z
    /\ (Grasp._successful_grasp_count e
        <= Grasp._successful_grasp_count (Grasp_calls calls e))%Z.
Proof.
  induction calls as [|[a|] rest IH]; intros e; cbn [Grasp_calls].
  - lia.
  - destruct (IH (snd (Grasp.step a e))) as (H1 & H2 & H3).
    destruct (Grasp_step_counters a e) as (G1 & G2 & G3). lia.
  - destruct (IH (Grasp.reset e)) as (H1 & H2 & H3).
    cbn in H1, H2, H3. lia.
Qed.

Lemma Grasp_step_episode_frame (a : pyaction) (e : Grasp.env) :
  Grasp._goal_position (snd (Grasp.step a e)) = Grasp._goal_position e
  /\ Grasp._target_object_id (snd (Grasp.step a e)) = Grasp._target_object_id e
  /\ Grasp._table_height (snd (Grasp.step a e)) = Grasp._table_height e
  /\ Grasp.cfg (snd (Grasp.step a e)) = Grasp.cfg e.
Proof.
  destruct (Grasp_step_cases a e) as [(r & e' & H & _)|(err & H & _)];
    rewrite H; cbn [snd]; [|repeat split].
  step_fields H; repeat split.
Qed.

(** X3.  Within an episode the goal, the target handle, the table height and
    the configuration are fixed: no sequence of [step] calls changes them,
    and the [desired_goal] of every returned observation is that goal. *)
Theorem goal_is_fixed_within_episode :
  (forall (actions : list pyaction) (e : Grasp.env),
      Grasp._goal_position (Grasp_steps actions e) = Grasp._goal_position e
      /\ Grasp._target_object_id (Grasp_steps actions e) = Grasp._target_object_id e
      /\ Grasp._table_height (Grasp_steps actions e) = Grasp._table_height e
      /\ Grasp.cfg (Grasp_steps actions e) = Grasp.cfg e)
  /\ (forall (a : pyaction) (e e' : Grasp.env) (r : Grasp.step_result),
         Grasp.step a e = (Ok r, e') ->
         exists d, Grasp.res_observation r = Grasp.ObsDict d
                   /\ Grasp.desired_goal d = Grasp._goal_position e).
Proof.
  split.
  - intros actions. induction actions as [|a rest IH]; intros e; [repeat split|].
    cbn [Grasp_steps].
    destruct (IH (snd (Grasp.step a e))) as (H1 & H2 & H3 & H4).
    destruct (Grasp_step_episode_frame a e) as (G1 & G2 & G3 & G4).
    rewrite H1, H2, H3, H4. repeat split; assumption.
  - intros a e e' r H.
    destruct (Grasp_step_facts _ _ H) as (cmd & d & _ & (_ & _ & Hg) & Ho & _).
    exists d. split; [exact Ho|]. rewrite Hg.
    destruct (after_tick_observed cmd e) as (d1 & H1).
    destruct (after_trigger_cases H1) as (_ & ->).
    destruct (vertical_distance d1 <=? Grasp._distance_to_grasp); reflexivity.
Qed.

Lemma Grasp_observation_ext (e1 e2 : Grasp.env) :
  Grasp.sim e1 = Grasp.sim e2 ->
  Grasp._target_object_id e1 = Grasp._target_object_id e2 ->
  Grasp._goal_position e1 = Grasp._goal_position e2 ->
  Grasp.get_extended_observation e1 = Grasp.get_extended_observation e2.
Proof.
  unfold Grasp.get_extended_observation. intros -> -> ->. reflexivity.
Qed.

Lemma set_observation_current (e : Grasp.env) :
  Grasp._observation
    (Grasp.set_observation (Grasp.ObsDict (Grasp.get_extended_observation e)) e)
  = Grasp.ObsDict
      (Grasp.get_extended_observation
         (Grasp.set_observation (Grasp.ObsDict (Grasp.get_extended_observation e)) e)).
Proof.
  cbn [Grasp._observation Grasp.set_observation]. apply f_equal.
  apply Grasp_observation_ext; reflexivity.
Qed.

(** After the distance check the stored observation is current, and the
    goal and the target handle are those of the start of the step. *)
Lemma after_trigger_current (cmd : list float) (e : Grasp.env) :
  Grasp._observation (after_trigger cmd e)
  = Grasp.ObsDict (Grasp.get_extended_observation (after_trigger cmd e))
  /\ Grasp._goal_position (after_trigger cmd e) = Grasp._goal_position e
  /\ Grasp._target_object_id (after_trigger cmd e) = Grasp._target_object_id e.
Proof.
  destruct (after_tick_observed cmd e) as (d1 & H1).
  destruct (after_trigger_cases H1) as (_ & ->).
  destruct (vertical_distance d1 <=? Grasp._distance_to_grasp).
  - unfold grasp_and_observe. cbv zeta.
    split; [apply set_observation_current|]. split; reflexivity.
  - unfold after_tick, Grasp.physics_tick. rewrite !bind_modify. cbn [modify snd].
    split; [apply set_observation_current|]. split; reflexivity.
Qed.

Lemma Grasp_step_observation
    (a : pyaction) (e e' : Grasp.env) (r : Grasp.step_result) :
  Grasp.step a e = (Ok r, e') ->
  Grasp.res_observation r = Grasp._observation e'
  /\ Grasp._observation e' = Grasp.ObsDict (Grasp.get_extended_observation e').
Proof.
  intros H.
  destruct (Grasp_step_inv _ _ H) as (cmd & Hcmd & Hrep).
  destruct (after_trigger_observed cmd e) as (d & Hobs & Hlen & Hgoal).
  destruct (Grasp_report_run _ Hobs Hlen Hgoal)
    as (r0 & e0 & Hr & Ho & _ & _ & _ & _ & _ & _ & _ & _ & Hsame & Hw).
  rewrite Hrep in Hr. injection Hr as <- <-.
  destruct (after_trigger_current cmd e) as (Hcur & Hg & Hid).
  destruct (Grasp_step_episode_frame a e) as (Hg' & Hid' & _).
  rewrite H in Hg', Hid'. cbn [snd] in Hg', Hid'.
  rewrite Ho, Hsame, Hobs. split; [reflexivity|].
  rewrite Hobs in Hcur. rewrite Hcur. apply f_equal.
  apply Grasp_observation_ext; congruence.
Qed.

(** X4.  The observation [step] returns is the one stored in the object,
    and it is current: it is what [get_extended_observation] reads in the
    state the step leaves, after the grasp animation if one ran. *)
Theorem returned_observation_is_current
    (a : pyaction) (e e' : Grasp.env) (r : Grasp.step_result) :
  Grasp.step a e = (Ok r, e') ->
  Grasp.res_observation r = Grasp._observation e'
  /\ Grasp._observation e' = Grasp.ObsDict (Grasp.get_extended_observation e').
Proof. apply Grasp_step_observation. Qed.

(** X5.  A step reported successful is reported done, and so is the step in
    which a grasp is attempted: an attempt ends the episode. *)
Theorem success_and_attempt_end_the_episode
    (a : pyaction) (e e' : Grasp.env) (r : Grasp.step_result) :
  Grasp.step a e = (Ok r, e') ->
  (Grasp.res_is_success r = true -> Grasp.res_done r = true)
  /\ (Grasp._grasp_attempts_count e' <> Grasp._grasp_attempts_count e ->
      Grasp.res_done r = true /\ Grasp._attempted_grasp e' = true).
Proof.
  intros H.
  destruct (Grasp_step_facts _ _ H)
    as (cmd & d & _ & _ & _ & Hs & Hd & _ & _ & Hatt & _ & Hcount & _).
  assert (Hdone : Grasp._attempted_grasp e' = true -> Grasp.res_done r = true).
  { intros Ha. rewrite Hd. unfold Grasp._termination. rewrite Ha.
    apply orb_true_r. }
  split.
  - intros Hsucc. apply Hdone. rewrite Hs in Hsucc.
    now apply andb_true_iff in Hsucc as [Ha _].
  - intros Hne.
    assert (Ha : Grasp._attempted_grasp e' = true).
    { rewrite Hatt. rewrite Hcount in Hne.
      destruct (after_tick_observed cmd e) as (d1 & H1).
      destruct (after_trigger_cases H1) as (_ & Hcases). rewrite Hcases in *.
      destruct (vertical_distance d1 <=? Grasp._distance_to_grasp);
        [reflexivity|]. now contradiction Hne. }
    split; [now apply Hdone|exact Ha].
Qed.

(** X6.  Termination is sticky: in a state where [_termination] holds, and so
    after any step that returned [done = True], every later returning step
    returns [done = True] as well, until [reset]. *)
Theorem done_is_sticky :
  (forall (a : pyaction) (e e' : Grasp.env) (r : Grasp.step_result),
      Grasp._termination e = true ->
      Grasp.step a e = (Ok r, e') ->
      Grasp.res_done r = true)
  /\ (forall (a1 a2 : pyaction) (e e1 e2 : Grasp.env) (r1 r2 : Grasp.step_result),
         Grasp.step a1 e = (Ok r1, e1) ->
         Grasp.res_done r1 = true ->
         Grasp.step a2 e1 = (Ok r2, e2) ->
         Grasp.res_done r2 = true).
Proof.
  assert (Hsticky : forall a e e' r,
             Grasp._termination e = true ->
             Grasp.step a e = (Ok r, e') -> Grasp.res_done r = true).
  { intros a e e' r Hterm H.
    destruct (Grasp_step_facts _ _ H) as (cmd & d & _ & _ & _ & _ & Hd & _).
    rewrite Hd. clear Hd. revert Hterm. unfold Grasp._termination.
    step_fields H; rewrite ?orb_true_r; try reflexivity;
      intros Hterm;
      repeat (apply orb_true_iff in Hterm as [Hterm|Hterm]);
      rewrite ?Hterm, ?orb_true_r; try reflexivity;
      apply Z.leb_le in Hterm;
      match goal with
      | |- context [(?m <=? ?c + 1)%Z] =>
          replace (m <=? c + 1)%Z with true by (symmetry; apply Z.leb_le; lia)
      end; rewrite ?orb_true_r; reflexivity. }
  split; [exact Hsticky|].
  intros a1 a2 e e1 e2 r1 r2 H1 Hd1 H2.
  apply (Hsticky a2 e1 e2 r2); [|exact H2].
  destruct (Grasp_step_facts _ _ H1) as (cmd & d & _ & _ & _ & _ & Hd & _).
  now rewrite <- Hd.
Qed.

(** X7.  In an episode that has not signalled termination, no grasp was
    attempted and none succeeded, and the observation held is a dictionary
    built for the episode's goal. *)
Theorem running_episode_has_no_grasp (e : Grasp.env) :
  running e ->
  Grasp._attempted_grasp e = false
  /\ Grasp._is_successful_grasp e = false
  /\ exists d, observed e d.
Proof.
  intros Hrun. induction Hrun as [e|e e' a r _ _ Hstep Hdone].
  - repeat split. eexists. split; [reflexivity|].
    split; [apply Grasp_observation_length|reflexivity].
  - destruct (Grasp_step_facts _ _ Hstep)
      as (cmd & d & _ & _ & _ & _ & Hd & _).
    rewrite Hd in Hdone. unfold Grasp._termination in Hdone.
    apply orb_false_iff in Hdone as [Hdone Ha].
    apply orb_false_iff in Hdone as [Hs _].
    split; [exact Ha|]. split; [exact Hs|].
    destruct (Grasp_step_observation _ _ Hstep) as (_ & Ho).
    eexists. split; [exact Ho|].
    split; [apply Grasp_observation_length|reflexivity].
Qed.

Lemma Grasp_real_action_index (e : Grasp.env) (i : Z) :
  Grasp.is_discrete (Grasp.cfg e) = true ->
  (-7 <= i < 7)%Z ->
  exists dx dy dz,
    Grasp.real_action (ActIndex i) e = (Ok [dx; dy; dz; 0; 0; 0; 1], e)
    /\ (Grasp.is_continuous_downward_enabled (Grasp.cfg e) = false ->
        In (dx, dy, dz) unit_moves)
    /\ (Grasp.is_continuous_downward_enabled (Grasp.cfg e) = true ->
        dz = - 0.01 /\ In (dx, dy) planar_moves).
Proof.
  intros Hd Hi.
  assert (Hcases : i = (-7)%Z \/ i = (-6)%Z \/ i = (-5)%Z \/ i = (-4)%Z
                   \/ i = (-3)%Z \/ i = (-2)%Z \/ i = (-1)%Z \/ i = 0%Z
                   \/ i = 1%Z \/ i = 2%Z \/ i = 3%Z \/ i = 4%Z \/ i = 5%Z
                   \/ i = 6%Z) by lia.
  unfold Grasp.real_action. rewrite bind_gets, Hd. cbv zeta.
  unfold bind, gets, lift, ret.
  repeat (destruct Hcases as [->|Hcases]); try subst i;
    (cbn;
     destruct (Grasp.is_continuous_downward_enabled (Grasp.cfg e));
     do 3 eexists;
     (split; [reflexivity|]);
     split; intros Hflag; try discriminate; try (split; [reflexivity|]); in_list).
Qed.

(** X8.  The discrete commands of variant 1: for every accepted index
    the command has seven entries, no rotation, and the gripper entry 1; it
    moves by 0.01 along at most one axis, or, when moving down is forced,
    by 0.01 down and by 0.01 along at most one axis of the plane. *)
Theorem discrete_command_moves_one_axis (e : Grasp.env) (i : Z) :
  Grasp.is_discrete (Grasp.cfg e) = true ->
  (-7 <= i < 7)%Z ->
  exists dx dy dz,
    Grasp.real_action (ActIndex i) e = (Ok [dx; dy; dz; 0; 0; 0; 1], e)
    /\ (Grasp.is_continuous_downward_enabled (Grasp.cfg e) = false ->
        In (dx, dy, dz) unit_moves)
    /\ (Grasp.is_continuous_downward_enabled (Grasp.cfg e) = true ->
        dz = - 0.01 /\ In (dx, dy) planar_moves).
Proof. apply Grasp_real_action_index. Qed.

Lemma Grasp_real_action_vector (e : Grasp.env) (v : list float) :
  Grasp.is_discrete (Grasp.cfg e) = false ->
  (6 <= List.length v)%nat ->
  Grasp.real_action (ActVector v) e
  = (Ok [nth 0 v 0 * 1.5; nth 1 v 0 * 1.5; nth 2 v 0 * 1.5;
         nth 3 v 0 * 1.5; nth 4 v 0 * 1.5; nth 5 v 0 * 1.5; 1], e).
Proof.
  intros Hd Hlen.
  unfold Grasp.real_action. rewrite bind_gets, Hd. cbv zeta.
  repeat (rewrite bind_lift;
          match goal with
          | |- context [py_getitem v ?k] => rewrite (@py_getitem_nth _ v k 0) by lia
          end).
  reflexivity.
Qed.

Lemma HER_real_action_vector (e : GraspHER.env) (v : list float) :
  GraspHER.is_discrete (GraspHER.cfg e) = false ->
  (6 <= List.length v)%nat ->
  GraspHER.real_action (ActVector v) e
  = (Ok [nth 0 v 0 * 1.5; nth 1 v 0 * 1.5; nth 2 v 0 * 1.5;
         nth 3 v 0 * 1.5; nth 4 v 0 * 1.5; nth 5 v 0 * 1.5; 1], e).
Proof.
  intros Hd Hlen.
  unfold GraspHER.real_action. rewrite bind_gets, Hd. cbv zeta.
  repeat (rewrite bind_lift;
          match goal with
          | |- context [py_getitem v ?k] => rewrite (@py_getitem_nth _ v k 0) by lia
          end).
  reflexivity.
Qed.

(** X9.  [step] of variant 1 returns for every action it accepts: a discrete
    index from -7 to 6, or, with continuous actions, a vector of at least
    six entries. *)
Theorem step_returns_for_accepted_actions :
  (forall (e : Grasp.env) (i : Z),
      Grasp.is_discrete (Grasp.cfg e) = true ->
      (-7 <= i < 7)%Z ->
      exists r e', Grasp.step (ActIndex i) e = (Ok r, e'))
  /\ (forall (e : Grasp.env) (v : list float),
         Grasp.is_discrete (Grasp.cfg e) = false ->
         (6 <= List.length v)%nat ->
         exists r e', Grasp.step (ActVector v) e = (Ok r, e')).
Proof.
  split.
  - intros e i Hd Hi.
    destruct (Grasp_real_action_index e Hd Hi) as (dx & dy & dz & Hcmd & _).
    destruct (Grasp_real_step_returns [dx; dy; dz; 0; 0; 0; 1] e) as (r & e' & Hr).
    exists r, e'. unfold Grasp.step. erewrite bind_ok by exact Hcmd. exact Hr.
  - intros e v Hd Hlen.
    pose proof (Grasp_real_action_vector e v Hd Hlen) as Hcmd.
    destruct (Grasp_real_step_returns
                [nth 0 v 0 * 1.5; nth 1 v 0 * 1.5; nth 2 v 0 * 1.5;
                 nth 3 v 0 * 1.5; nth 4 v 0 * 1.5; nth 5 v 0 * 1.5; 1] e)
      as (r & e' & Hr).
    exists r, e'. unfold Grasp.step. erewrite bind_ok by exact Hcmd. exact Hr.
Qed.

(** X10.  Continuous actions, in both variants: a vector of fewer than six
    entries makes [step] raise [IndexError] with the state untouched; of a
    longer vector only the first six entries are used, each scaled by 1.5,
    with the gripper entry 1 appended. *)
Theorem continuous_action_uses_six_entries :
  (forall (e : Grasp.env) (v : list float),
      Grasp.is_discrete (Grasp.cfg e) = false ->
      (List.length v < 6)%nat ->
      Grasp.step (ActVector v) e = (Raise IndexError, e))
  /\ (forall (e : GraspHER.env) (v : list float),
         GraspHER.is_discrete (GraspHER.cfg e) = false ->
         (List.length v < 6)%nat ->
         GraspHER.step (ActVector v) e = (Raise IndexError, e))
  /\ (forall (e : Grasp.env) (v : list float),
         Grasp.is_discrete (Grasp.cfg e) = false ->
         (6 <= List.length v)%nat ->
         Grasp.real_action (ActVector v) e
         = (Ok [nth 0 v 0 * 1.5; nth 1 v 0 * 1.5; nth 2 v 0 * 1.5;
                nth 3 v 0 * 1.5; nth 4 v 0 * 1.5; nth 5 v 0 * 1.5; 1], e))
  /\ (forall (e : GraspHER.env) (v : list float),
         GraspHER.is_discrete (GraspHER.cfg e) = false ->
         (6 <= List.length v)%nat ->
         GraspHER.real_action (ActVector v) e
         = (Ok [nth 0 v 0 * 1.5; nth 1 v 0 * 1.5; nth 2 v 0 * 1.5;
                nth 3 v 0 * 1.5; nth 4 v 0 * 1.5; nth 5 v 0 * 1.5; 1], e)).
Proof.
  split; [|split; [|split]].
  - intros e v Hd Hlen.
    unfold Grasp.step. erewrite bind_raise; [reflexivity|].
    unfold Grasp.real_action. rewrite bind_gets, Hd.
    do 6 (destruct v as [|? v]; [reflexivity|]). cbn in Hlen. lia.
  - intros e v Hd Hlen.
    unfold GraspHER.step. erewrite bind_raise; [reflexivity|].
    unfold GraspHER.real_action. rewrite bind_gets, Hd.
    do 6 (destruct v as [|? v]; [reflexivity|]). cbn in Hlen. lia.
  - intros e v Hd Hlen. now apply Grasp_real_action_vector.
  - intros e v Hd Hlen. now apply HER_real_action_vector.
Qed.

(** X11.  What a returning [step] of variant 1 does to the simulator.
    When no grasp is attempted: the command, then one physics step.  When
    one is attempted: the command and one physics step, then
    [update_gripper_pos], then 100 physics steps after the closing
    commands (six zeros and the finger value), then between 1 and 100
    physics steps after the lift command (up by 0.005, nothing else): at
    most 201 physics steps in all. *)
Theorem step_advances_world
    (a : pyaction) (e e' : Grasp.env) (r : Grasp.step_result) :
  Grasp.step a e = (Ok r, e') ->
  exists cmd,
    Grasp.real_action a e = (Ok cmd, e)
    /\ let w0 := stepSimulation (apply_action cmd (Grasp.sim e)) in
       (Grasp._grasp_attempts_count e' = Grasp._grasp_attempts_count e
        /\ Grasp.sim e' = w0)
       \/ (Grasp._grasp_attempts_count e' = (Grasp._grasp_attempts_count e + 1)%Z
           /\ exists k : nat,
                (0 < k <= 100)%nat
                /\ Grasp.sim e'
                   = raised k
                       (fingers_closed (finger_angles 100 100 1)
                          (update_gripper_pos w0))
                /\ List.length (finger_angles 100 100 1) = 100%nat).
Proof.
  intros H.
  destruct (Grasp_step_facts _ _ H)
    as (cmd & d & Hcmd & _ & _ & _ & _ & _ & _ & _ & _ & Hg & Hw).
  exists cmd. split; [exact Hcmd|]. cbv zeta.
  destruct (after_tick_observed cmd e) as (d1 & H1).
  destruct (after_trigger_cases H1) as (_ & Hcases).
  rewrite Hg, Hw, Hcases.
  destruct (vertical_distance d1 <=? Grasp._distance_to_grasp).
  - right. split; [reflexivity|].
    destruct (animation_run (Grasp._target_object_id e) 2.5
                (update_gripper_pos (tick cmd (Grasp.sim e))))
      as (k & Hk & Heq & _).
    exists k. split; [exact Hk|]. split; [|reflexivity].
    unfold tick in Heq. rewrite <- Heq. reflexivity.
  - left. split; reflexivity.
Qed.

Lemma real_action_depends_on_cfg (e1 e2 : Grasp.env) (a : pyaction) :
  Grasp.cfg e1 = Grasp.cfg e2 ->
  fst (Grasp.real_action a e1) = fst (Grasp.real_action a e2).
Proof.
  intros Hc. unfold Grasp.real_action.
  rewrite !bind_gets, Hc.
  destruct (Grasp.is_discrete (Grasp.cfg e2)), a as [i|v];
    try reflexivity; cbv zeta;
    repeat (repeat first [rewrite bind_lift | rewrite bind_gets | rewrite bind_ret];
            rewrite ?Hc;
            match goal with
            | |- context [match ?r with Ok _ => _ | Raise _ => _ end] =>
                destruct r; try reflexivity
            | |- context [if ?b then _ else _] => destruct b; try reflexivity
            end).
Qed.

Lemma accepted_depends_on_cfg (e1 e2 : Grasp.env) (a : pyaction) :
  Grasp.cfg e1 = Grasp.cfg e2 -> accepted e1 a = accepted e2 a.
Proof.
  intros Hc. unfold accepted. now rewrite (real_action_depends_on_cfg _ _ a Hc).
Qed.

(** X12.  The step counter counts the calls of [step] that did not raise,
    whether or not the episode had terminated: after any calls it is the
    counter before them plus the number of accepted actions among them. *)
Theorem step_counter_counts_returning_calls (actions : list pyaction) :
  forall e : Grasp.env,
    Grasp._env_step_counter (Grasp_steps actions e)
    = (Grasp._env_step_counter e
       + Z.of_nat (List.length (filter (accepted e) actions)))%Z.
Proof.
  induction actions as [|a rest IH]; intros e; cbn [Grasp_steps filter].
  - cbn. lia.
  - rewrite IH.
    destruct (Grasp_step_episode_frame a e) as (_ & _ & _ & Hc).
    rewrite (filter_ext _ _ (fun x => accepted_depends_on_cfg _ _ x Hc)).
    destruct (Grasp_step_cases a e) as [(r & e' & H & ->)|(err & H & ->)];
      rewrite H; cbn [snd List.length].
    + destruct (Grasp_step_facts _ _ H)
        as (cmd & d & _ & _ & _ & _ & _ & _ & _ & _ & Hn & _).
      rewrite Hn. lia.
    + lia.
Qed.

End Episodes.

(** ** More of the HER variant *)

Section HERMore.
Context {B : Backend}.

(** The loop of [real_step] while no grasp was attempted: the counter
    moves up by one per iteration until it reaches [max_step_count], and
    the loop stops after the tick at which it finds the counter there. *)
Lemma HER_repeat_action_run (n : nat) (cmd : list float) :
  forall e : GraspHER.env,
    GraspHER._attempted_grasp e = false ->
    (GraspHER._env_step_counter e <= GraspHER.max_step_count (GraspHER.cfg e))%Z ->
    GraspHER._env_step_counter (GraspHER.repeat_action n cmd e)
    = Z.min (GraspHER._env_step_counter e + Z.of_nat n)
            (GraspHER.max_step_count (GraspHER.cfg e))
    /\ GraspHER.sim (GraspHER.repeat_action n cmd e)
       = Nat.iter
           (Nat.min n (Z.to_nat (GraspHER.max_step_count (GraspHER.cfg e)
                                 - GraspHER._env_step_counter e + 1)))
           (tick cmd) (GraspHER.sim e).
Proof.
  induction n as [|n IH]; intros e Ha Hle.
  - cbn [GraspHER.repeat_action Nat.min Nat.iter nat_rect]. split; [lia|reflexivity].
  - cbn [GraspHER.repeat_action].
    set (e1 := GraspHER.set_sim _ (GraspHER.set_sim _ e)).
    assert (Hterm : GraspHER._termination e1
                    = (GraspHER.max_step_count (GraspHER.cfg e)
                       <=? GraspHER._env_step_counter e)%Z).
    { subst e1. unfold GraspHER._termination. cbn. now rewrite Ha. }
    rewrite Hterm.
    destruct (GraspHER.max_step_count (GraspHER.cfg e)
              <=? GraspHER._env_step_counter e)%Z eqn:Hmax.
    + apply Z.leb_le in Hmax. subst e1.
      cbn [GraspHER._env_step_counter GraspHER.sim GraspHER.set_sim GraspHER.cfg].
      split; [lia|].
      replace (Nat.min (S n)
                 (Z.to_nat (GraspHER.max_step_count (GraspHER.cfg e)
                            - GraspHER._env_step_counter e + 1)))
        with 1%nat by lia.
      reflexivity.
    + apply Z.leb_gt in Hmax.
      destruct (IH (GraspHER.set_env_step_counter
                      (GraspHER._env_step_counter e1 + 1)%Z e1)) as (Hc & Hs).
      * subst e1. exact Ha.
      * subst e1.
        cbn [GraspHER._env_step_counter GraspHER.sim GraspHER.set_sim GraspHER.cfg
             GraspHER.set_env_step_counter].
        lia.
      * rewrite Hc, Hs. subst e1.
        cbn [GraspHER._env_step_counter GraspHER.sim GraspHER.set_sim GraspHER.cfg
             GraspHER.set_env_step_counter].
        split; [lia|].
        replace (Nat.min (S n)
                   (Z.to_nat (GraspHER.max_step_count (GraspHER.cfg e)
                              - GraspHER._env_step_counter e + 1)))
          with (S (Nat.min n
                     (Z.to_nat (GraspHER.max_step_count (GraspHER.cfg e)
                                - (GraspHER._env_step_counter e + 1) + 1))))
          by lia.
        rewrite Nat.iter_succ_r. reflexivity.
Qed.

(** The loop once a grasp was attempted: one tick, no count. *)
Lemma HER_repeat_action_after_attempt (n : nat) (cmd : list float) (e : GraspHER.env) :
  GraspHER._attempted_grasp e = true ->
  GraspHER._env_step_counter (GraspHER.repeat_action n cmd e)
  = GraspHER._env_step_counter e
  /\ GraspHER.sim (GraspHER.repeat_action n cmd e)
     = Nat.iter (Nat.min n 1) (tick cmd) (GraspHER.sim e).
Proof.
  intros Ha. destruct n as [|n]; [split; reflexivity|].
  cbn [GraspHER.repeat_action].
  set (e1 := GraspHER.set_sim _ (GraspHER.set_sim _ e)).
  assert (Hterm : GraspHER._termination e1 = true).
  { subst e1. unfold GraspHER._termination. cbn. now rewrite Ha. }
  rewrite Hterm. subst e1. split; [reflexivity|].
  replace (Nat.min (S n) 1) with 1%nat by lia. reflexivity.
Qed.

(** X13.  In the HER variant a call of [step] whose action is accepted sends
    the command and ticks the physics before it raises.  While no grasp
    was attempted the step counter moves up by [_action_repeat_amount] but
    saturates at [max_step_count], and the number of ticks is the number of
    counted iterations plus the one at which the loop finds the counter
    saturated; once a grasp was attempted the counter stands still and one
    tick is made. *)
Theorem her_step_counter_saturates
    (a : pyaction) (e : GraspHER.env) (cmd : list float) :
  GraspHER.real_action a e = (Ok cmd, e) ->
  let n := Z.to_nat (GraspHER.action_repeat_amount (GraspHER.cfg e)) in
  let e' := snd (GraspHER.step a e) in
  (GraspHER._attempted_grasp e = false ->
   (GraspHER._env_step_counter e <= GraspHER.max_step_count (GraspHER.cfg e))%Z ->
   GraspHER._env_step_counter e'
   = Z.min (GraspHER._env_step_counter e + Z.of_nat n)
           (GraspHER.max_step_count (GraspHER.cfg e))
   /\ GraspHER.sim e'
      = Nat.iter
          (Nat.min n (Z.to_nat (GraspHER.max_step_count (GraspHER.cfg e)
                                - GraspHER._env_step_counter e + 1)))
          (tick cmd) (GraspHER.sim e))
  /\ (GraspHER._attempted_grasp e = true ->
      GraspHER._env_step_counter e' = GraspHER._env_step_counter e
      /\ GraspHER.sim e' = Nat.iter (Nat.min n 1) (tick cmd) (GraspHER.sim e)).
Proof.
  intros Hcmd. cbv zeta.
  assert (Hstep : snd (GraspHER.step a e) = snd (GraspHER.physics_tick cmd e)).
  { unfold GraspHER.step. erewrite bind_ok by exact Hcmd.
    now rewrite HER_real_step_raises. }
  rewrite Hstep. unfold GraspHER.physics_tick. rewrite bind_modify.
  cbn [modify snd GraspHER._env_step_counter GraspHER.sim GraspHER.set_observation].
  split.
  - intros Ha Hle. now apply HER_repeat_action_run.
  - intros Ha. now apply HER_repeat_action_after_attempt.
Qed.

(** X14.  On the observation the class itself stores, a dictionary, every
    helper of the HER variant that reads positions raises [TypeError] and
    leaves the state untouched.  [reset] stores such a dictionary when it
    returns, which it does when the target position is fixed; with a
    sampled position it raises where the cube is loaded and leaves
    [_observation] as it was. *)
Theorem her_position_helpers_raise :
  (forall (e : GraspHER.env) (d : GraspHER.obs_dict),
      GraspHER._observation e = GraspHER.ObsDict d ->
      GraspHER.get_gripper_pos e = (Raise TypeError, e)
      /\ GraspHER.get_target_pos e = (Raise TypeError, e)
      /\ GraspHER.get_distance_to_target e = (Raise TypeError, e)
      /\ GraspHER._compute_reward e = (Raise TypeError, e)
      /\ GraspHER.grasp_trigger e = (Raise TypeError, e)
      /\ GraspHER.report e = (Raise TypeError, e))
  /\ (forall e : GraspHER.env,
         GraspHER.is_target_position_fixed (GraspHER.cfg e) = true ->
         exists d,
           fst (GraspHER.reset e) = Ok (GraspHER.ObsDict d)
           /\ GraspHER._observation (snd (GraspHER.reset e)) = GraspHER.ObsDict d)
  /\ (forall e : GraspHER.env,
         GraspHER.is_target_position_fixed (GraspHER.cfg e) = false ->
         fst (GraspHER.reset e) = Raise PybulletError
         /\ GraspHER._observation (snd (GraspHER.reset e)) = GraspHER._observation e).
Proof.
  split; [|split].
  - intros e d Hobs. now apply HER_helpers_raise with (d := d).
  - intros e Hfixed. destruct (HER_reset_fixed e Hfixed) as (d & Hr & Hobs).
    exists d. split; [now rewrite Hr|exact Hobs].
  - intros e Hfixed. destruct (HER_reset_sampled e Hfixed) as (Hr & Hobs & _).
    split; assumption.
Qed.

(** X15.  The fixed offsets of the HER getters fit the observation vector that
    [get_extended_observation] builds exactly when the robot controller
    reports seven values: then entries 7 to 9 are the target position,
    entry 9 is the achieved goal, and entries 0 to 2 are the controller's
    first three values. *)
Theorem her_offsets_fit_seven_values (e : GraspHER.env) :
  List.length (get_observation (GraspHER.sim e)) = 7%nat ->
  let d := GraspHER.get_extended_observation e in
  her_target_pos (GraspHER.observation d)
  = list_of_vec3
      (fst (getBasePositionAndOrientation (GraspHER.target_object_id e) (GraspHER.sim e)))
  /\ her_target_height (GraspHER.observation d) = GraspHER.achieved_goal d
  /\ her_gripper_pos (GraspHER.observation d)
     = firstn 3 (get_observation (GraspHER.sim e))
  /\ List.length (GraspHER.observation d) = 15%nat.
Proof.
  intros Hlen. cbv zeta.
  unfold GraspHER.get_extended_observation.
  cbn [GraspHER.observation GraspHER.achieved_goal].
  destruct (get_observation (GraspHER.sim e))
    as [|a0 [|a1 [|a2 [|a3 [|a4 [|a5 [|a6 [|a7 l]]]]]]]]; try discriminate.
  repeat split.
Qed.

(** X16.  In variant 1 the end-effector position the distances use is the
    first three values of the robot controller, provided it reports at
    least three; and the observation vector always ends with the target
    position, its orientation and the goal, ten entries after the
    controller's. *)
Theorem grasp_observation_layout (e : Grasp.env) :
  let d := Grasp.get_extended_observation e in
  let robot := get_observation (Grasp.sim e) in
  List.length (Grasp.observation d) = (List.length robot + 10)%nat
  /\ skipn (List.length robot) (Grasp.observation d)
     = list_of_vec3 (Grasp.achieved_goal d)
       ++ list_of_quat
            (snd (getBasePositionAndOrientation (Grasp._target_object_id e) (Grasp.sim e)))
       ++ list_of_vec3 (Grasp.desired_goal d)
  /\ ((3 <= List.length robot)%nat -> gripper_pos_of d = firstn 3 robot).
Proof.
  cbv zeta. unfold gripper_pos_of, py_slice, Grasp.get_extended_observation.
  cbn [Grasp.observation Grasp.achieved_goal Grasp.desired_goal].
  split; [|split].
  - rewrite !length_app. cbn. lia.
  - rewrite skipn_app, skipn_all, Nat.sub_diag. reflexivity.
  - intros Hlen. cbn [skipn Nat.sub].
    rewrite firstn_app.
    replace (3 - List.length (get_observation (Grasp.sim e)))%nat with 0%nat by lia.
    cbn [firstn]. now rewrite app_nil_r.
Qed.

(** X17.  The discrete commands of the HER variant, for the indices 0 to 7 its
    tables accept: seven entries, no roll or pitch, gripper entry 1.
    Within the declared action space 0..5 exactly one of x, y, z moves by
    0.01 and yaw is never commanded; index 6 commands nothing and index 7
    only a yaw of -0.01.  The yaw entry +0.01 of the table is selected by
    no index from 0 to 7, only by index -1. *)
Theorem her_discrete_command_table (e : GraspHER.env) :
  GraspHER.is_discrete (GraspHER.cfg e) = true ->
  GraspHER.is_continuous_downward_enabled (GraspHER.cfg e) = false ->
  (forall i : Z,
      (0 <= i < 8)%Z ->
      exists dx dy dz dyaw,
        GraspHER.real_action (ActIndex i) e = (Ok [dx; dy; dz; 0; 0; dyaw; 1], e)
        /\ ((i < 6)%Z -> dyaw = 0 /\ In (dx, dy, dz) (tl unit_moves))
        /\ (i = 6%Z -> (dx, dy, dz, dyaw) = (0, 0, 0, 0))
        /\ (i = 7%Z -> (dx, dy, dz, dyaw) = (0, 0, 0, - 0.01)))
  /\ GraspHER.real_action (ActIndex (-1)) e = (Ok [0; 0; 0; 0; 0; 0.01; 1], e).
Proof.
  intros Hd Hdown.
  split.
  - intros i Hi.
    assert (Hcases : i = 0%Z \/ i = 1%Z \/ i = 2%Z \/ i = 3%Z \/ i = 4%Z
                     \/ i = 5%Z \/ i = 6%Z \/ i = 7%Z) by lia.
    unfold GraspHER.real_action. rewrite bind_gets, Hd. cbv zeta.
    unfold bind, gets, lift, ret.
    repeat (destruct Hcases as [->|Hcases]); try subst i;
      (cbn; rewrite Hdown; do 4 eexists; (split; [reflexivity|]);
       (split; [intros Hlt; first [lia | split; [reflexivity|in_list]]|]);
       split; intros Heq; try discriminate; reflexivity).
  - unfold GraspHER.real_action. rewrite bind_gets, Hd. cbv zeta.
    unfold bind, gets, lift, ret. cbn. rewrite Hdown. reflexivity.
Qed.

End HERMore.

(** ** What [reset] keeps *)

Section Resets.
Context {B : Backend}.

(** X18.  [reset] erases the episode: in variant 1, and in the HER variant
    with a fixed target position, the result and the state it builds
    depend only on the configuration, the simulator and the three
    cumulative counters.  The flags, the step counter, the goal, the
    target handle, the table height and the observation of the previous
    episode have no influence.  In the HER variant with a sampled target
    position [reset] raises, and the observation and the target handle of
    the previous episode are still there afterwards. *)
Theorem reset_erases_the_episode :
  (forall e1 e2 : Grasp.env,
      Grasp.cfg e1 = Grasp.cfg e2 ->
      Grasp.sim e1 = Grasp.sim e2 ->
      Grasp._episode_number e1 = Grasp._episode_number e2 ->
      Grasp._grasp_attempts_count e1 = Grasp._grasp_attempts_count e2 ->
      Grasp._successful_grasp_count e1 = Grasp._successful_grasp_count e2 ->
      Grasp.reset e1 = Grasp.reset e2)
  /\ (forall e1 e2 : GraspHER.env,
         GraspHER.is_target_position_fixed (GraspHER.cfg e1) = true ->
         GraspHER.cfg e1 = GraspHER.cfg e2 ->
         GraspHER.sim e1 = GraspHER.sim e2 ->
         GraspHER.episode_number e1 = GraspHER.episode_number e2 ->
         GraspHER.grasp_attempts_count e1 = GraspHER.grasp_attempts_count e2 ->
         GraspHER.successful_grasp_count e1 = GraspHER.successful_grasp_count e2 ->
         GraspHER.reset e1 = GraspHER.reset e2)
  /\ (forall e : GraspHER.env,
         GraspHER.is_target_position_fixed (GraspHER.cfg e) = false ->
         fst (GraspHER.reset e) = Raise PybulletError
         /\ GraspHER._observation (snd (GraspHER.reset e)) = GraspHER._observation e
         /\ GraspHER.target_object_id (snd (GraspHER.reset e))
            = GraspHER.target_object_id e).
Proof.
  split; [|split].
  - intros e1 e2 Hc Hs He Ha Hn.
    unfold Grasp.reset, Grasp.set_observation, Grasp.get_extended_observation.
    cbn [Grasp.cfg Grasp._episode_number Grasp._grasp_attempts_count
         Grasp._attempted_grasp Grasp._observation Grasp._env_step_counter
         Grasp._terminated Grasp._table_height Grasp._successful_grasp_count
         Grasp._target_object_id Grasp._is_successful_grasp Grasp._goal_position
         Grasp.sim].
    rewrite Hc, Hs, He, Ha, Hn. reflexivity.
  - intros e1 e2 Hfixed Hc Hs He Ha Hn.
    assert (Hfixed2 : GraspHER.is_target_position_fixed (GraspHER.cfg e2) = true)
      by now rewrite <- Hc.
    unfold GraspHER.reset. rewrite Hfixed, Hfixed2.
    cbn [GraspHER.p_loadURDF_cube fst snd].
    unfold GraspHER.set_observation, GraspHER.get_extended_observation.
    cbn [GraspHER.cfg GraspHER.episode_number GraspHER.grasp_attempts_count
         GraspHER._attempted_grasp GraspHER._observation GraspHER._env_step_counter
         GraspHER._terminated GraspHER._table_height GraspHER.successful_grasp_count
         GraspHER.target_object_id GraspHER.successful_grasp GraspHER.sim].
    rewrite Hc, Hs, He, Ha, Hn. reflexivity.
  - intros e Hfixed. now apply HER_reset_sampled.
Qed.

End Resets.

(** ** Concrete runs of the further properties *)

(** X1 on a concrete run: a grasp from just above the block. *)
Lemma counters_follow_reports_witness :
  exists r e',
    Grasp.step (B := toy) (ActIndex 0) (grasp_env near 5 "dense") = (Ok r, e')
    /\ (Grasp._episode_number e'
        = (Grasp._episode_number (grasp_env near 5 "dense")
           + (if Grasp.res_done r then 1 else 0))%Z
        /\ Grasp._successful_grasp_count e'
           = (Grasp._successful_grasp_count (grasp_env near 5 "dense")
              + (if Grasp.res_is_success r then 1 else 0))%Z
        /\ (Grasp._grasp_attempts_count e'
            = Grasp._grasp_attempts_count (grasp_env near 5 "dense")
            \/ Grasp._grasp_attempts_count e'
               = (Grasp._grasp_attempts_count (grasp_env near 5 "dense") + 1)%Z)).
Proof.
  do 2 eexists. split; [vm_compute; reflexivity|].
  eapply (@counters_follow_reports toy (ActIndex 0) (grasp_env near 5 "dense")).
  vm_compute; reflexivity.
Defined.

(** X3 on concrete runs. *)
Lemma goal_is_fixed_witness :
  Grasp._goal_position
    (Grasp_steps (B := toy) [ActIndex 1; ActIndex 5] (grasp_env near 5 "dense"))
  = Grasp._goal_position (grasp_env near 5 "dense")
  /\ exists r e',
       Grasp.step (B := toy) (ActIndex 0) (grasp_env near 5 "dense") = (Ok r, e')
       /\ exists d, Grasp.res_observation r = Grasp.ObsDict d
                    /\ Grasp.desired_goal d
                       = Grasp._goal_position (grasp_env near 5 "dense").
Proof.
  split.
  - apply (proj1 (@goal_is_fixed_within_episode toy)).
  - do 2 eexists. split; [vm_compute; reflexivity|].
    eapply (proj2 (@goal_is_fixed_within_episode toy) (ActIndex 0)
              (grasp_env near 5 "dense")).
    vm_compute; reflexivity.
Defined.

(** X4 on a concrete run. *)
Lemma returned_observation_witness :
  exists r e',
    Grasp.step (B := toy) (ActIndex 0) (grasp_env near 5 "dense") = (Ok r, e')
    /\ (Grasp.res_observation r = Grasp._observation e'
        /\ Grasp._observation e'
           = Grasp.ObsDict (Grasp.get_extended_observation e')).
Proof.
  do 2 eexists. split; [vm_compute; reflexivity|].
  eapply (@returned_observation_is_current toy (ActIndex 0) (grasp_env near 5 "dense")).
  vm_compute; reflexivity.
Defined.

(** X5 on a concrete run. *)
Lemma success_and_attempt_witness :
  exists r e',
    Grasp.step (B := toy) (ActIndex 0) (grasp_env near 5 "dense") = (Ok r, e')
    /\ ((Grasp.res_is_success r = true -> Grasp.res_done r = true)
        /\ (Grasp._grasp_attempts_count e'
            <> Grasp._grasp_attempts_count (grasp_env near 5 "dense") ->
            Grasp.res_done r = true /\ Grasp._attempted_grasp e' = true)).
Proof.
  do 2 eexists. split; [vm_compute; reflexivity|].
  eapply (@success_and_attempt_end_the_episode toy (ActIndex 0)
            (grasp_env near 5 "dense")).
  vm_compute; reflexivity.
Defined.

(** X6 on a concrete run: one more step after the grasp. *)
Lemma done_is_sticky_witness :
  exists r e',
    Grasp.step (B := toy) (ActIndex 2) grasp_env_grasped = (Ok r, e')
    /\ Grasp.res_done r = true.
Proof.
  do 2 eexists. split; [vm_compute; reflexivity|].
  eapply (proj1 (@done_is_sticky toy) (ActIndex 2) grasp_env_grasped).
  - vm_compute; reflexivity.
  - vm_compute; reflexivity.
Defined.

(** X7 right after [__init__]. *)
Lemma running_episode_witness :
  Grasp._attempted_grasp (grasp_env far 5 "dense") = false
  /\ Grasp._is_successful_grasp (grasp_env far 5 "dense") = false
  /\ exists d, observed (grasp_env far 5 "dense") d.
Proof.
  apply (@running_episode_has_no_grasp toy). apply running_reset.
Defined.

(** X8 at index -1. *)
Lemma discrete_command_witness :
  exists dx dy dz,
    Grasp.real_action (B := toy) (ActIndex (-1)) (grasp_env far 5 "dense")
    = (Ok [dx; dy; dz; 0; 0; 0; 1], grasp_env far 5 "dense")
    /\ (Grasp.is_continuous_downward_enabled (Grasp.cfg (grasp_env far 5 "dense")) = false ->
        In (dx, dy, dz) unit_moves)
    /\ (Grasp.is_continuous_downward_enabled (Grasp.cfg (grasp_env far 5 "dense")) = true ->
        dz = - 0.01 /\ In (dx, dy) planar_moves).
Proof.
  apply (@discrete_command_moves_one_axis toy (grasp_env far 5 "dense") (-1)%Z).
  - reflexivity.
  - lia.
Defined.

(** X9 at index 3 and at a vector of six entries. *)
Lemma step_returns_witness :
  (exists r e', Grasp.step (B := toy) (ActIndex 3) (grasp_env far 5 "dense") = (Ok r, e'))
  /\ (exists r e',
         Grasp.step (B := toy) (ActVector [0.1; 0; 0; 0; 0; 0]) grasp_env_continuous
         = (Ok r, e')).
Proof.
  split.
  - apply (proj1 (@step_returns_for_accepted_actions toy)); [reflexivity|lia].
  - apply (proj2 (@step_returns_for_accepted_actions toy)); [reflexivity|cbn; lia].
Defined.

(** X10 at a vector of two entries and at one of eight. *)
Lemma continuous_action_witness :
  Grasp.step (B := toy) (ActVector [0.1; 0.2]) grasp_env_continuous
  = (Raise IndexError, grasp_env_continuous)
  /\ Grasp.real_action (B := toy) (ActVector [0.1; 0; 0; 0; 0; 0; 7; 8]) grasp_env_continuous
     = (Ok [nth 0 [0.1; 0; 0; 0; 0; 0; 7; 8] 0 * 1.5;
            nth 1 [0.1; 0; 0; 0; 0; 0; 7; 8] 0 * 1.5;
            nth 2 [0.1; 0; 0; 0; 0; 0; 7; 8] 0 * 1.5;
            nth 3 [0.1; 0; 0; 0; 0; 0; 7; 8] 0 * 1.5;
            nth 4 [0.1; 0; 0; 0; 0; 0; 7; 8] 0 * 1.5;
            nth 5 [0.1; 0; 0; 0; 0; 0; 7; 8] 0 * 1.5; 1], grasp_env_continuous).
Proof.
  split.
  - apply (proj1 (@continuous_action_uses_six_entries toy)); [reflexivity|cbn; lia].
  - apply (proj1 (proj2 (proj2 (@continuous_action_uses_six_entries toy))));
      [reflexivity|cbn; lia].
Defined.

(** X11 on a concrete run. *)
Lemma step_advances_world_witness :
  exists r e',
    Grasp.step (B := toy) (ActIndex 0) (grasp_env near 5 "dense") = (Ok r, e')
    /\ exists cmd,
         Grasp.real_action (ActIndex 0) (grasp_env near 5 "dense")
         = (Ok cmd, grasp_env near 5 "dense")
         /\ let w0 := stepSimulation (Backend := toy)
                        (apply_action cmd (Grasp.sim (grasp_env near 5 "dense"))) in
            (Grasp._grasp_attempts_count e'
             = Grasp._grasp_attempts_count (grasp_env near 5 "dense")
             /\ Grasp.sim e' = w0)
            \/ (Grasp._grasp_attempts_count e'
                = (Grasp._grasp_attempts_count (grasp_env near 5 "dense") + 1)%Z
                /\ exists k : nat,
                     (0 < k <= 100)%nat
                     /\ Grasp.sim e'
                        = raised k
                            (fingers_closed (finger_angles 100 100 1)
                               (update_gripper_pos w0))
                     /\ List.length (finger_angles 100 100 1) = 100%nat).
Proof.
  do 2 eexists. split; [vm_compute; reflexivity|].
  eapply (@step_advances_world toy (ActIndex 0) (grasp_env near 5 "dense")).
  vm_compute; reflexivity.
Defined.

(** X13 on a concrete run: one tick, the counter at 1. *)
Lemma her_step_counter_witness :
  GraspHER._env_step_counter
    (snd (GraspHER.step (B := toy) (ActIndex 4) (her_env near 5))) = 1%Z
  /\ GraspHER.sim (snd (GraspHER.step (B := toy) (ActIndex 4) (her_env near 5)))
     = tick (B := toy) [0; 0; -0.01; 0; 0; 0; 1] (GraspHER.sim (her_env near 5)).
Proof.
  assert (Hcmd : GraspHER.real_action (B := toy) (ActIndex 4) (her_env near 5)
                 = (Ok [0; 0; -0.01; 0; 0; 0; 1], her_env near 5))
    by (vm_compute; reflexivity).
  destruct (proj1 (@her_step_counter_saturates toy (ActIndex 4) (her_env near 5) _ Hcmd))
    as (Hc & Hs).
  - reflexivity.
  - vm_compute; discriminate.
  - split; [rewrite Hc; reflexivity|rewrite Hs; reflexivity].
Defined.

(** X14 right after [__init__], and on a second [reset]. *)
Lemma her_position_helpers_witness :
  (GraspHER._compute_reward (B := toy) (her_env near 5) = (Raise TypeError, her_env near 5)
   /\ GraspHER.get_distance_to_target (B := toy) (her_env near 5)
      = (Raise TypeError, her_env near 5))
  /\ (exists d,
         fst (GraspHER.reset (B := toy) (her_env near 5)) = Ok (GraspHER.ObsDict d)
         /\ GraspHER._observation (snd (GraspHER.reset (B := toy) (her_env near 5)))
            = GraspHER.ObsDict d).
Proof.
  split.
  - destruct (proj1 (@her_position_helpers_raise toy) (her_env near 5)
                (GraspHER.get_extended_observation (B := toy) (her_env near 5)))
      as (_ & _ & Hd & Hr & _).
    + vm_compute; reflexivity.
    + split; assumption.
  - apply (proj1 (proj2 (@her_position_helpers_raise toy)) (her_env near 5)).
    reflexivity.
Defined.

(** X15 on the concrete backend, whose controller reports seven values. *)
Lemma her_offsets_witness :
  her_target_pos
    (GraspHER.observation (GraspHER.get_extended_observation (B := toy) (her_env near 5)))
  = list_of_vec3
      (fst (getBasePositionAndOrientation (Backend := toy)
              (GraspHER.target_object_id (her_env near 5))
              (GraspHER.sim (her_env near 5)))).
Proof.
  apply (@her_offsets_fit_seven_values toy (her_env near 5)). reflexivity.
Defined.

(** X17 at index -1. *)
Lemma her_discrete_command_witness :
  GraspHER.real_action (B := toy) (ActIndex (-1)) (her_env far 5)
  = (Ok [0; 0; 0; 0; 0; 0.01; 1], her_env far 5).
Proof.
  apply (@her_discrete_command_table toy (her_env far 5)); reflexivity.
Defined.

(** X18 on two states that differ in the flag and the step counter, in
    each variant. *)
Lemma reset_erases_witness :
  Grasp.reset (B := toy) (grasp_env far 5 "dense")
  = Grasp.reset (B := toy)
      (Grasp.set_env_step_counter 3 (Grasp.set_attempted_grasp true (grasp_env far 5 "dense")))
  /\ GraspHER.reset (B := toy) (her_env far 5)
     = GraspHER.reset (B := toy)
         (GraspHER.set_env_step_counter 3
            (GraspHER.set_attempted_grasp true (her_env far 5))).
Proof.
  split.
  - apply (proj1 (@reset_erases_the_episode toy)); reflexivity.
  - apply (proj1 (proj2 (@reset_erases_the_episode toy))); reflexivity.
Defined.
